(** * Dead man's switch: the trigger service and its sweep, verified

    A shallow embedding of the two Go sources of package [deadmod]:

    - the service itself (HTTP router, trigger lifecycle on Cloud Datastore,
      cron sweep), embedded in [Module Deadmod];
    - [handler.go], the stand-alone router with stub operations, embedded in
      [Module Handler].

    The pieces of the Go runtime and of the client libraries that the package
    calls are gathered in [Module Go].

    Conventions. What a function reads from the outside (the clock, a fresh
    UUID, the failures of the store and of the HTTP client) is a record that
    it takes as an argument; the store is a finite map that it takes and
    returns; the response writer is a value that it takes and returns. A
    [context.Context] is not represented. The log lines of the request
    handlers are left out, those of the sweep are part of its trace. *)

From Stdlib Require Import ZArith String Ascii List Lia.
From stdpp Require Import gmap strings list fin_maps sorting pretty.

Local Open Scope Z_scope.

(** ** The Go side: integers, time, strings, errors, responses *)

Module Go.

(** [int] is 64 bits wide here: the package converts [time.Hour]
    (3600000000000) to [int], which a 32-bit [int] cannot hold. *)
Definition int_min : Z := - 2 ^ 63.
Definition int_max : Z := 2 ^ 63 - 1.

Definition in_int (z : Z) : bool := (int_min <=? z) && (z <=? int_max).

(** Two's complement wrap-around of signed 64-bit arithmetic. *)
Definition wrap64 (z : Z) : Z := (z + 2 ^ 63) mod 2 ^ 64 - 2 ^ 63.

Definition int_mul (a b : Z) : Z := wrap64 (a * b).

(** [time.Duration]: a signed 64-bit count of nanoseconds. *)
Definition Duration : Type := Z.
Definition Second : Duration := 1000000000.
Definition Hour : Duration := 3600 * Second.

(** [time.Time]: an instant, counted in nanoseconds from the Unix epoch.
    [time.Time] itself holds 64-bit seconds, so that [Add] of a [Duration]
    to a clock reading never leaves its range. *)
Definition Time : Type := Z.

(** Seconds between the zero [time.Time] (year 1) and the Unix epoch. *)
Definition unixToInternal : Z := 62135596800.

(** [t.Truncate(d)]: round [t] down to a multiple of [d] since the zero
    time; [t] itself when [d <= 0]. *)
Definition Truncate (t : Time) (d : Duration) : Time :=
  if d <=? 0 then t else t - (t + unixToInternal * Second) mod d.

(** [t.Add(d)]. *)
Definition Add (t : Time) (d : Duration) : Time := t + d.

(** [strings.Split(s, "/")]: one more segment than there are slashes. *)
Fixpoint Split (s : string) : list string :=
  match s with
  | EmptyString => [EmptyString]
  | String c rest =>
      if Ascii.eqb c "/" then EmptyString :: Split rest
      else match Split rest with
           | seg :: segs => String c seg :: segs
           | [] => [String c EmptyString]
           end
  end.

(** [strconv.Itoa] on a length. *)
Definition Itoa (n : nat) : string := pretty n.

(** Errors that come out of the client libraries: the two sentinel
    values the package compares against, and every other failure. *)
Inductive lib_error : Type :=
| ErrNoSuchEntity                 (* datastore.ErrNoSuchEntity *)
| Done                            (* iterator.Done *)
| Failure (msg : string).         (* network, deadline, quota, ... *)

Definition lib_error_Error (e : lib_error) : string :=
  match e with
  | ErrNoSuchEntity => "datastore: no such entity"
  | Done => "no more items in iterator"
  | Failure msg => msg
  end.

#[global] Instance lib_error_eq_dec : EqDecision lib_error.
Proof. solve_decision. Defined.

Inductive result (E A : Type) : Type :=
| Ok (a : A)
| Err (e : E).
Arguments Ok {E A} a.
Arguments Err {E A} e.

(** The package [github.com/satori/go.uuid], as far as it is used:
    [FromString] yields a value and an error (the value is whatever was
    decoded before the error), [String] prints the canonical form. *)
Class UuidLib : Type := {
  UUID : Type;
  FromString : string -> UUID * option string;
  UUID_String : UUID -> string
}.

(** The [net/http] status codes the package names. *)
Definition StatusOK : Z := 200.
Definition StatusNoContent : Z := 204.
Definition StatusTemporaryRedirect : Z := 307.
Definition StatusNotFound : Z := 404.
Definition StatusMethodNotAllowed : Z := 405.
Definition StatusUnprocessableEntity : Z := 422.
Definition StatusInternalServerError : Z := 500.

(** *** The response writer

    What the handler has sent so far: the header fields it has set
    itself, the status line once it is written, and the body, chunk by
    chunk. A body chunk is plain text or the JSON encoding of a value of
    type [J]. The fields that the server adds by itself on the way out (the
    date, a content type guessed from the first bytes when the handler set
    none, the length of a short body) are not part of [rw_header]. *)
Section Writer.
Context {J : Type}.

Inductive Chunk : Type :=
| Text (s : string)
| Json (v : J).

Record ResponseWriter : Type := {
  rw_header : list (string * string);
  rw_status : option Z;
  rw_body : list Chunk
}.

Definition fresh_writer : ResponseWriter :=
  {| rw_header := []; rw_status := None; rw_body := [] |}.

(** [rw.Header().Add(k, v)]; header fields set after the status line
    went out are not sent. *)
Definition Header_Add (k v : string) (w : ResponseWriter)
  : ResponseWriter :=
  match rw_status w with
  | None => {| rw_header := rw_header w ++ [(k, v)];
               rw_status := rw_status w;
               rw_body := rw_body w |}
  | Some _ => w
  end.

(** [rw.WriteHeader(code)]; a second call is ignored. *)
Definition WriteHeader (code : Z) (w : ResponseWriter) : ResponseWriter :=
  match rw_status w with
  | None => {| rw_header := rw_header w;
               rw_status := Some code;
               rw_body := rw_body w |}
  | Some _ => w
  end.

(** [rw.Write(b)]; the first write sends status 200 when none was
    set. *)
Definition Write (c : Chunk) (w : ResponseWriter) : ResponseWriter :=
  let w' := WriteHeader StatusOK w in
  {| rw_header := rw_header w';
     rw_status := rw_status w';
     rw_body := rw_body w' ++ [c] |}.
End Writer.
Arguments Chunk J : clear implicits.
Arguments ResponseWriter J : clear implicits.

(** An inbound request, as far as the router looks at it. The body is
    kept in the handler's own representation [B]. *)
Record Request (B : Type) : Type := {
  Method : string;
  Path : string;
  Body : B
}.
Arguments Method {B} r.
Arguments Path {B} r.
Arguments Body {B} r.

(** [segments[i]] behind a length check. *)
Definition seg (segments : list string) (i : nat) : string :=
  nth i segments EmptyString.

End Go.

Export Go.

(** ** The service *)

Module Deadmod.

(** [DeadMansTrigger], the one entity. *)
Record DeadMansTrigger : Type := {
  Id : string;
  DueToFire : Time;
  HoursBetweenFire : Z;
  Checkins : list Time;
  FireURL : string;
  FirePayload : string
}.

#[global] Instance DeadMansTrigger_eq_dec : EqDecision DeadMansTrigger.
Proof. solve_decision. Defined.

(** [StatusCodeError] and the [error] interface: an error value is either
    a [*StatusCodeError] of this package or an error of a library. *)
Record StatusCodeError : Type := {
  StatusCode : Z;
  Message : string
}.

Inductive error : Type :=
| StatusErr (e : StatusCodeError)
| LibErr (e : lib_error).

Definition Error (e : error) : string :=
  match e with
  | StatusErr sc => Message sc
  | LibErr le => lib_error_Error le
  end.

Definition notFound : StatusCodeError :=
  {| StatusCode := StatusNotFound;
     Message := "The requested URL could not be found" |}.

Abbreviation Writer := (ResponseWriter DeadMansTrigger).

(** *** The datastore

    Every key the package builds has kind ["DMT"]; a key is represented by
    its name. A call to the store either fails with the error the
    environment injects, or acts on the map. *)
Definition Kind : string := "DMT".

Abbreviation Store := (gmap string DeadMansTrigger).

Definition store_Get (flt : option lib_error) (s : Store) (key : string)
  : result lib_error DeadMansTrigger :=
  match flt with
  | Some e => Err e
  | None => match s !! key with
            | Some entity => Ok entity
            | None => Err ErrNoSuchEntity
            end
  end.

Definition store_Put (flt : option lib_error) (s : Store) (key : string)
    (entity : DeadMansTrigger) : option lib_error * Store :=
  match flt with
  | Some e => (Some e, s)
  | None => (None, <[key := entity]> s)
  end.

(** Deleting a key that holds no entity is not an error in Cloud
    Datastore. *)
Definition store_Delete (flt : option lib_error) (s : Store) (key : string)
  : option lib_error * Store :=
  match flt with
  | Some e => (Some e, s)
  | None => (None, delete key s)
  end.

(** *** What a request handler reads from its surroundings *)
Record Env `{UuidLib} : Type := {
  env_now : Time;                    (* time.Now() *)
  env_newV4 : UUID;                  (* uuid.NewV4() *)
  env_baseURL : string;              (* baseURL, set by init() *)
  env_get : option lib_error;        (* failure of store.Get, if any *)
  env_put : option lib_error;        (* failure of store.Put, if any *)
  env_delete : option lib_error      (* failure of store.Delete, if any *)
}.

(** *** The body of a create request

    What [json.Decoder.Decode] makes of the request body for the three
    fields of the input structure: the body does not decode (syntax error,
    a field of the wrong JSON type), or it is a JSON object in which each
    of the three fields is present with a value of its type, or absent. *)
Inductive RequestBody : Type :=
| Undecodable (msg : string)
| JsonObject (hoursBetweenFire : option Z) (fireURL firePayload : option string).

Record Input : Type := {
  in_HoursBetweenFire : Z;
  in_FireURL : string;
  in_FirePayload : string
}.

(** A field that is absent keeps its zero value; a number that does not
    fit [int] is a decoding error, whose message quotes the number. *)
Definition Decode (body : RequestBody) : result string Input :=
  match body with
  | Undecodable msg => Err msg
  | JsonObject h u p =>
      if in_int (default 0 h) then
        Ok {| in_HoursBetweenFire := default 0 h;
              in_FireURL := default EmptyString u;
              in_FirePayload := default EmptyString p |}
      else
        Err ("json: cannot unmarshal number " +:+ pretty (default 0 h)
             +:+ " into Go struct field .hoursBetweenFire of type int")
  end.

Section Lifecycle.
Context `{UuidLib}.

Definition sendEntity (writer : Writer) (entity : DeadMansTrigger) : Writer :=
  Write (Json entity) (Header_Add "Content-Type" "application/json" writer).

Definition checkinTrigger (env : Env) (id : UUID) (s : Store) (writer : Writer)
  : option error * Store * Writer :=
  let key := UUID_String id in
  match store_Get (env_get env) s key with
  | Ok entity =>
      let now := Truncate (env_now env) Second in
      let entity :=
        {| Id := Id entity;
           DueToFire := Add now (int_mul (HoursBetweenFire entity) Hour);
           HoursBetweenFire := HoursBetweenFire entity;
           Checkins := Checkins entity ++ [now];
           FireURL := FireURL entity;
           FirePayload := FirePayload entity |} in
      match store_Put (env_put env) s key entity with
      | (None, s') => (None, s', sendEntity writer entity)
      | (Some e, s') => (Some (LibErr e), s', writer)
      end
  | Err e =>
      if decide (e = ErrNoSuchEntity) then (Some (StatusErr notFound), s, writer)
      else (Some (LibErr e), s, writer)
  end.

Definition deleteTrigger (env : Env) (id : UUID) (s : Store) (writer : Writer)
  : option error * Store * Writer :=
  match store_Delete (env_delete env) s (UUID_String id) with
  | (None, s') => (None, s', WriteHeader StatusNoContent writer)
  | (Some e, s') => (Some (LibErr e), s', writer)
  end.

Definition getTrigger (env : Env) (id : UUID) (s : Store) (writer : Writer)
  : option error * Store * Writer :=
  match store_Get (env_get env) s (UUID_String id) with
  | Ok entity => (None, s, sendEntity writer entity)
  | Err e =>
      if decide (e = ErrNoSuchEntity) then (Some (StatusErr notFound), s, writer)
      else (Some (LibErr e), s, writer)
  end.

Definition createTrigger (env : Env) (body : RequestBody) (s : Store)
    (responseWriter : Writer) : option error * Store * Writer :=
  match Decode body with
  | Ok input =>
      let now := Truncate (env_now env) Second in
      let fullEntity :=
        {| Id := UUID_String (env_newV4 env);
           DueToFire := Add now (int_mul (in_HoursBetweenFire input) Hour);
           Checkins := [now];
           HoursBetweenFire := in_HoursBetweenFire input;
           FirePayload := in_FirePayload input;
           FireURL := in_FireURL input |} in
      match store_Put (env_put env) s (Id fullEntity) fullEntity with
      | (None, s') =>
          let path := env_baseURL env +:+ "/triggers/" +:+ Id fullEntity in
          (None, s',
           WriteHeader StatusTemporaryRedirect
             (Header_Add "Location" path responseWriter))
      | (Some e, s') => (Some (LibErr e), s', responseWriter)
      end
  | Err msg =>
      (Some (StatusErr {| StatusCode := StatusUnprocessableEntity;
                          Message := msg |}), s, responseWriter)
  end.

(** *** The router *)
Definition methodNotAllowed (methods : string) : error :=
  StatusErr {| StatusCode := StatusMethodNotAllowed;
               Message := "The requested method is not available. Available methods: "
                          +:+ methods |}.

(** The first half of [HandleHTTP]: which operation runs, or which error
    is set without one. *)
Definition route (env : Env) (rq : Request RequestBody) (s : Store) (rw : Writer)
  : option error * Store * Writer :=
  let segments := Split (Path rq) in
  let length := List.length segments in
  if (2 <=? length)%nat && String.eqb (seg segments 1) "triggers" then
    match length with
    | 2%nat =>
        if String.eqb (Method rq) "POST" then createTrigger env (Body rq) s rw
        else (Some (methodNotAllowed "POST"), s, rw)
    | 3%nat =>
        match FromString (seg segments 2) with
        | (id, None) =>
            if String.eqb (Method rq) "GET" then getTrigger env id s rw
            else if String.eqb (Method rq) "DELETE" then deleteTrigger env id s rw
            else (Some (methodNotAllowed "GET, DELETE"), s, rw)
        | (_, Some _) => (Some (StatusErr notFound), s, rw)
        end
    | 4%nat =>
        match FromString (seg segments 2) with
        | (id, None) =>
            if String.eqb (seg segments 3) "checkin" then
              if String.eqb (Method rq) "POST" then checkinTrigger env id s rw
              else (Some (methodNotAllowed "POST"), s, rw)
            else (Some (StatusErr notFound), s, rw)
        | (_, Some _) => (Some (StatusErr notFound), s, rw)
        end
    | _ => (Some (StatusErr notFound), s, rw)
    end
  else (Some (StatusErr notFound), s, rw).

(** The second half: an error becomes a plain-text response. *)
Definition report (err : option error) (rw : Writer) : Writer :=
  match err with
  | Some e =>
      let text := Error e in
      let code := match e with
                  | StatusErr sc => StatusCode sc
                  | LibErr _ => StatusInternalServerError
                  end in
      Write (Text text)
        (WriteHeader code
           (Header_Add "Content-Length" (Itoa (String.length text))
              (Header_Add "Content-Type" "text/plain;charset=UTF-8" rw)))
  | None => rw
  end.

Definition HandleHTTP (env : Env) (rq : Request RequestBody) (s : Store) (rw : Writer)
  : Store * Writer :=
  let '(err, s', rw') := route env rq s rw in
  (s', report err rw').

End Lifecycle.

(** *** The cron sweep

    What the sweep does to the outside: log lines, the POSTs of the
    callbacks, the deletes it asks of the store. *)
Inductive LogLine : Type :=
| LogFiring (id url : string)
| LogInvoked (url : string) (status : Z)
| LogFailed (url err : string).

Inductive Event : Type :=
| EvLog (l : LogLine)
| EvPost (url body : string)
| EvDelete (key : string).

(** The HTTP client: [http.NewRequest] rejects some URLs; [Do] ends in a
    response (of any status) or in an error. *)
Record HttpEnv : Type := {
  NewRequest_error : string -> option string;
  Do : string -> string -> result string Z
}.

(** What the sweep reads from its surroundings. The query may break off
    after some results; each delete may fail; the callbacks, which run
    concurrently, get to run in an order that the program does not fix. *)
Record CronEnv : Type := {
  cron_now : Time;                                  (* time.Now() *)
  cron_query : option (nat * lib_error);            (* results before the query fails *)
  cron_delete : nat -> option lib_error;            (* failure of the n-th store.Delete *)
  cron_http : HttpEnv;
  cron_order : list nat                             (* which waiting callback runs next *)
}.

(** The query [DueToFire <= now]: the matching entities, in the order of
    the index of the property of the inequality filter: by due time, and by
    key among entities with the same due time. *)
Definition due_by (now : Time) (kv : string * DeadMansTrigger) : Prop :=
  DueToFire kv.2 <= now.

Definition by_due (a b : string * DeadMansTrigger) : Prop :=
  DueToFire a.2 < DueToFire b.2
  \/ (DueToFire a.2 = DueToFire b.2 /\ String.leb a.1 b.1 = true).

#[global] Instance due_by_dec now kv : Decision (due_by now kv).
Proof. unfold due_by. apply _. Defined.

#[global] Instance by_due_dec a b : Decision (by_due a b).
Proof. unfold by_due. apply _. Defined.

Record Iterator : Type := {
  it_pending : list (string * DeadMansTrigger);
  it_final : lib_error
}.

Definition query_results (s : Store) (now : Time) : list (string * DeadMansTrigger) :=
  merge_sort by_due (filter (due_by now) (map_to_list s)).

Definition store_Run (flt : option (nat * lib_error)) (s : Store) (now : Time)
  : Iterator :=
  match flt with
  | None => {| it_pending := query_results s now; it_final := Done |}
  | Some (n, e) => {| it_pending := take n (query_results s now); it_final := e |}
  end.

(** [it.Next(&target)]: the key and the entity, or the final error. *)
Definition Next (it : Iterator)
  : result lib_error (string * DeadMansTrigger) * Iterator :=
  match it_pending it with
  | r :: rest => (Ok r, {| it_pending := rest; it_final := it_final it |})
  | [] => (Err (it_final it), it)
  end.

(** The state a sweep works on: the store, the trace of its effects, the
    wait group counter, the goroutines launched and not yet finished, and
    the number of deletes issued so far. *)
Record Sweep : Type := {
  sw_store : Store;
  sw_trace : list Event;
  sw_wg : nat;
  sw_launched : list (string * string);
  sw_deletes : nat
}.

Definition emit (ev : list Event) (w : Sweep) : Sweep :=
  {| sw_store := sw_store w; sw_trace := sw_trace w ++ ev; sw_wg := sw_wg w;
     sw_launched := sw_launched w; sw_deletes := sw_deletes w |}.

Definition wg_Add (n : nat) (w : Sweep) : Sweep :=
  {| sw_store := sw_store w; sw_trace := sw_trace w; sw_wg := (sw_wg w + n)%nat;
     sw_launched := sw_launched w; sw_deletes := sw_deletes w |}.

(** [group.Done()], on a positive counter. On a counter at zero Go panics
    ("sync: negative WaitGroup counter"); [wait_for], through which every
    callback runs, lets none run there, so that the predecessor below is
    never taken of zero. *)
Definition wg_Done (w : Sweep) : Sweep :=
  {| sw_store := sw_store w; sw_trace := sw_trace w; sw_wg := Nat.pred (sw_wg w);
     sw_launched := sw_launched w; sw_deletes := sw_deletes w |}.

(** [go fireHttpCallback(ctx, url, body, &wg)]: the arguments are
    evaluated now, the call runs on its own. *)
Definition go (url body : string) (w : Sweep) : Sweep :=
  {| sw_store := sw_store w; sw_trace := sw_trace w; sw_wg := sw_wg w;
     sw_launched := sw_launched w ++ [(url, body)]; sw_deletes := sw_deletes w |}.

(** [store.Delete(ctx, k)] inside the sweep. *)
Definition sweep_Delete (cenv : CronEnv) (k : string) (w : Sweep)
  : option lib_error * Sweep :=
  let '(err, s') := store_Delete (cron_delete cenv (sw_deletes w)) (sw_store w) k in
  (err,
   {| sw_store := s'; sw_trace := sw_trace w ++ [EvDelete k]; sw_wg := sw_wg w;
      sw_launched := sw_launched w; sw_deletes := S (sw_deletes w) |}).

Definition fireHttpCallback (http : HttpEnv) (requestUrl body : string) (w : Sweep)
  : Sweep :=
  let w :=
    match NewRequest_error http requestUrl with
    | None =>
        match Do http requestUrl body with
        | Ok status =>
            emit [EvPost requestUrl body; EvLog (LogInvoked requestUrl status)] w
        | Err e =>
            emit [EvPost requestUrl body; EvLog (LogFailed requestUrl e)] w
        end
    | Some e => emit [EvLog (LogFailed requestUrl e)] w
    end in
  wg_Done w.

(** The order in which the running callbacks get to run: [picks] names,
    step by step, which of those still waiting comes next (counted modulo
    their number); when [picks] runs out, the rest run in launch order.
    Every order of the callbacks is [run_order picks] for some [picks]. *)
Fixpoint run_order {A : Type} (picks : list nat) (running : list A) : list A :=
  match picks with
  | [] => running
  | p :: picks' =>
      match running !! (p mod length running)%nat with
      | Some g => g :: run_order picks' (delete (p mod length running)%nat running)
      | None => running
      end
  end.

(** Waiting on the counter: as long as it is positive, the next callback
    runs to its [group.Done()]; once it is zero the wait is over, and the
    callbacks that have not run yet are still running when [Wait]
    returns. A [group.Done()] is thus only reached on a positive counter. *)
Fixpoint wait_for (http : HttpEnv) (running : list (string * string)) (w : Sweep)
  : Sweep :=
  match running with
  | [] =>
      {| sw_store := sw_store w; sw_trace := sw_trace w; sw_wg := sw_wg w;
         sw_launched := []; sw_deletes := sw_deletes w |}
  | g :: rest =>
      if (sw_wg w =? 0)%nat then
        {| sw_store := sw_store w; sw_trace := sw_trace w; sw_wg := sw_wg w;
           sw_launched := running; sw_deletes := sw_deletes w |}
      else wait_for http rest (fireHttpCallback http g.1 g.2 w)
  end.

(** [wg.Wait()]. The trace lists the events of the callbacks after those
    of the loop, each callback's events together: of the trace, the order
    of the loop's own events is meant, and which events the callbacks add,
    not where these stand. *)
Definition wg_Wait (cenv : CronEnv) (w : Sweep) : Sweep :=
  wait_for (cron_http cenv) (run_order (cron_order cenv) (sw_launched w)) w.

(** The [for] loop of [ServeCron], entered with [err == nil], with [k]
    and [target] as the last [Next] left them. [pending] and [final] are
    the iterator. Of [target], the loop reads [Id], [FireURL] and
    [FirePayload]. *)
Fixpoint cron_for (cenv : CronEnv) (pending : list (string * DeadMansTrigger))
    (final : lib_error) (k : string) (target : DeadMansTrigger) (w : Sweep)
  : option lib_error * Sweep :=
  (* body *)
  let w := emit [EvLog (LogFiring (Id target) (FireURL target))] w in
  let w := wg_Add 1 w in
  let w := go (FireURL target) (FirePayload target) w in
  let '(err, w) := sweep_Delete cenv k w in
  (* post statement: _, err = it.Next(&target) *)
  match pending with
  | (_, target') :: pending' =>
      let err : option lib_error := None in
      cron_for cenv pending' final k target' w
  | [] =>
      let err := Some final in
      (err, w)
  end.

Definition ServeCron (cenv : CronEnv) (s : Store) : option error * Sweep :=
  let w := {| sw_store := s; sw_trace := []; sw_wg := 0%nat;
              sw_launched := []; sw_deletes := 0%nat |} in
  let it := store_Run (cron_query cenv) s (cron_now cenv) in
  (* init statement: k, err = it.Next(&target) *)
  let '(err, w) :=
    match Next it with
    | (Ok (k, target), it') => cron_for cenv (it_pending it') (it_final it') k target w
    | (Err e, _) => (Some e, w)
    end in
  let err := match err with
             | Some e => if decide (e = Done) then None else Some (LibErr e)
             | None => None
             end in
  let w := wg_Wait cenv w in
  (err, w).

End Deadmod.

(** ** [handler.go]: the router over stub operations *)

Module Handler.

(** [NotFound] and [MethodNotAllowed], the two error types of the file;
    both implement [StatusCoder]. *)
Inductive error : Type :=
| NotFound
| MethodNotAllowed (m : list string).

Definition StatusCode (e : error) : Z :=
  match e with
  | NotFound => StatusNotFound
  | MethodNotAllowed _ => StatusMethodNotAllowed
  end.

(** [MethodNotAllowed.Error] formats its own receiver with [%v]. The
    receiver implements [error], so [fmt] prints it by calling its [Error]
    method: the method calls itself, each call one frame deeper. [fuel]
    is the depth the stack allows; [None] is a call that does not
    return. *)
Fixpoint MethodNotAllowed_Error (fuel : nat) (m : list string) : option string :=
  match fuel with
  | O => None
  | S fuel' =>
      match MethodNotAllowed_Error fuel' m with
      | Some v => Some ("Method not allowed. Supported methods: " +:+ v)
      | None => None
      end
  end.

Definition Error (fuel : nat) (e : error) : option string :=
  match e with
  | NotFound => Some "The requested resource could not be found"
  | MethodNotAllowed m => MethodNotAllowed_Error fuel m
  end.

(** The stubs write no JSON. *)
Abbreviation Writer := (ResponseWriter Empty_set).

Section Router.
Context `{UuidLib}.

Definition checkinTrigger (uuids : UUID) (writer : Writer) : option error * Writer :=
  (None, Write (Text "CheckinTrigger") writer).

Definition deleteTrigger (uuids : UUID) (writer : Writer) : option error * Writer :=
  (None, Write (Text "DeleteTrigger") writer).

Definition getTrigger (uuids : UUID) (writer : Writer) : option error * Writer :=
  (None, Write (Text "GetTrigger") writer).

Definition createTrigger (body : unit) (responseWriter : Writer)
  : option error * Writer :=
  (None, Write (Text "CreateTrigger") responseWriter).

(** The first half of [HandleHTTP]. *)
Definition route (rq : Request unit) (rw : Writer) : option error * Writer :=
  let segments := Split (Path rq) in
  let length := List.length segments in
  if (1 <=? length)%nat && String.eqb (seg segments 0) "triggers" then
    match length with
    | 1%nat =>
        if String.eqb (Method rq) "POST" then createTrigger (Body rq) rw
        else (Some (MethodNotAllowed ["POST"]), rw)
    | 2%nat =>
        match FromString (seg segments 1) with
        | (id, Some _) =>
            if String.eqb (Method rq) "GET" then getTrigger id rw
            else if String.eqb (Method rq) "DELETE" then deleteTrigger id rw
            else (Some (MethodNotAllowed ["GET"; "DELETE"]), rw)
        | (_, None) => (Some NotFound, rw)
        end
    | 3%nat =>
        match FromString (seg segments 1) with
        | (id, None) =>
            if String.eqb (seg segments 2) "checkin" then
              if String.eqb (Method rq) "POST" then checkinTrigger id rw
              else (Some (MethodNotAllowed ["POST"]), rw)
            else (Some NotFound, rw)
        | (_, Some _) => (Some NotFound, rw)
        end
    | _ => (Some NotFound, rw)
    end
  else (Some NotFound, rw).

(** The second half; [None] when [err.Error()] does not return. *)
Definition report (fuel : nat) (err : option error) (rw : Writer) : option Writer :=
  match err with
  | Some e =>
      match Error fuel e with
      | Some text =>
          Some (Write (Text text)
                  (WriteHeader (StatusCode e)
                     (Header_Add "Content-Length" (Itoa (String.length text))
                        (Header_Add "Content-Type" "text/plain;charset=UTF-8" rw))))
      | None => None
      end
  | None => Some rw
  end.

Definition HandleHTTP (fuel : nat) (rq : Request unit) (rw : Writer) : option Writer :=
  let '(err, rw') := route rq rw in
  report fuel err rw'.

End Router.

End Handler.

(** ** A stand-in for the UUID library

    Identifiers in canonical lower-case text form, 8-4-4-4-12 hexadecimal
    digits; used where a closed statement needs a concrete identifier. The
    library reads further spellings of an identifier (upper case, braces, a
    URN prefix, no hyphens); the stand-in is used on strings of the
    canonical form, which both read alike, and on strings that are no
    spelling of an identifier at all. The general statements are about any
    [UuidLib]. *)

Module SampleUuid.

Definition is_hex (c : ascii) : bool :=
  let n := nat_of_ascii c in
  ((48 <=? n) && (n <=? 57) || (97 <=? n) && (n <=? 102))%nat.

Fixpoint canonical_from (i : nat) (s : string) : bool :=
  match s with
  | EmptyString => (i =? 36)%nat
  | String c rest =>
      (if ((i =? 8) || (i =? 13) || (i =? 18) || (i =? 23))%nat
       then Ascii.eqb c "-" else is_hex c)
      && canonical_from (S i) rest
  end.

#[global] Instance lib : UuidLib := {|
  UUID := string;
  FromString := fun s =>
    if canonical_from 0 s then (s, None)
    else (EmptyString, Some "uuid: incorrect UUID format");
  UUID_String := fun u => u
|}.

Definition id1 : string := "6ba7b810-9dad-11d1-80b4-00c04fd430c8".
Definition id2 : string := "6ba7b811-9dad-11d1-80b4-00c04fd430c8".

End SampleUuid.

(** ** Vocabulary of the statements *)

Import Deadmod.

(** The intervals whose length in nanoseconds fits a signed 64-bit
    integer. *)
Definition hours_exact (h : Z) : Prop := -2562047 <= h <= 2562047.

(** A mutation of the store that the service reports as a success: a create
    or a check-in that returns no error. [key] is the record it wrote. *)
Definition successful_mutation `{UuidLib} (env : Env) (s s' : Store) (key : string)
  : Prop :=
  (exists body w w',
      createTrigger env body s w = (None, s', w')
      /\ key = UUID_String (env_newV4 env))
  \/ (exists id w w',
         checkinTrigger env id s w = (None, s', w')
         /\ key = UUID_String id).

(** Check-ins on [id], one per environment, each of which has to
    succeed. *)
Fixpoint checkin_all `{UuidLib} (envs : list Env) (id : UUID) (s : Store)
  : option Store :=
  match envs with
  | [] => Some s
  | env :: rest =>
      match checkinTrigger env id s fresh_writer with
      | (None, s', _) => checkin_all rest id s'
      | (Some _, _, _) => None
      end
  end.

(** The time of the last of the mutations made under [env0 :: envs]. *)
Definition last_now `{UuidLib} (env0 : Env) (envs : list Env) : Time :=
  env_now (List.last envs env0).

(** The record a create writes, and the record a check-in at [now] makes
    of [old]. *)
Definition created `{UuidLib} (env : Env) (input : Input) : DeadMansTrigger :=
  {| Id := UUID_String (env_newV4 env);
     DueToFire := Add (Truncate (env_now env) Second)
                    (int_mul (in_HoursBetweenFire input) Hour);
     HoursBetweenFire := in_HoursBetweenFire input;
     Checkins := [Truncate (env_now env) Second];
     FireURL := in_FireURL input;
     FirePayload := in_FirePayload input |}.

Definition checked_in (now : Time) (old : DeadMansTrigger) : DeadMansTrigger :=
  {| Id := Id old;
     DueToFire := Add now (int_mul (HoursBetweenFire old) Hour);
     HoursBetweenFire := HoursBetweenFire old;
     Checkins := Checkins old ++ [now];
     FireURL := FireURL old;
     FirePayload := FirePayload old |}.

(** The errors the router hands to its second half. *)
Definition error_kind (e : error) : Prop :=
  e = StatusErr notFound
  \/ (exists methods, e = methodNotAllowed methods)
  \/ (exists msg, e = StatusErr {| StatusCode := StatusUnprocessableEntity;
                                    Message := msg |})
  \/ (exists le, e = LibErr le).

Definition status_of (e : error) : Z :=
  match e with
  | StatusErr sc => StatusCode sc
  | LibErr _ => StatusInternalServerError
  end.

(** What the first half of the router can have done to the store [s] and
    to the writer [w]: nothing but set an error, or one of the four
    operations to its end. *)
Inductive effect `{UuidLib} (env : Env) (s : Store) (w : Writer)
  : option error * Store * Writer -> Prop :=
| effect_error (e : error) :
    error_kind e -> effect env s w (Some e, s, w)
| effect_get (k : string) (ent : DeadMansTrigger) :
    s !! k = Some ent -> effect env s w (None, s, sendEntity w ent)
| effect_delete (k : string) :
    effect env s w (None, delete k s, WriteHeader StatusNoContent w)
| effect_create (input : Input) :
    effect env s w
      (None, <[UUID_String (env_newV4 env) := created env input]> s,
       WriteHeader StatusTemporaryRedirect
         (Header_Add "Location"
            (env_baseURL env +:+ "/triggers/" +:+ UUID_String (env_newV4 env)) w))
| effect_checkin (k : string) (old : DeadMansTrigger) :
    s !! k = Some old ->
    effect env s w
      (None, <[k := checked_in (Truncate (env_now env) Second) old]> s,
       sendEntity w (checked_in (Truncate (env_now env) Second) old)).

(** A record as the service writes it: stored under its own id, with a last
    check-in from which the due time was computed, all check-ins on whole
    seconds. *)
Definition trigger_ok (k : string) (e : DeadMansTrigger) : Prop :=
  Id e = k
  /\ (exists t, last (Checkins e) = Some t
                /\ DueToFire e = Add t (int_mul (HoursBetweenFire e) Hour))
  /\ Forall (fun t => t mod Second = 0) (Checkins e).

Definition store_ok (s : Store) : Prop := map_Forall trigger_ok s.

(** The stores the service can get to from the empty one, by requests and
    by sweeps, whatever the surroundings do. *)
Inductive reachable `{UuidLib} : Store -> Prop :=
| reachable_empty : reachable ∅
| reachable_request (env : Env) (rq : Request RequestBody) (s : Store) (rw : Writer) :
    reachable s -> reachable (HandleHTTP env rq s rw).1
| reachable_sweep (cenv : CronEnv) (s : Store) :
    reachable s -> reachable (sw_store (ServeCron cenv s).2).

(** Readings of a sweep's trace: the keys of the deletes it issued, and the
    URLs of the callbacks that ran to their end (with whatever outcome). *)
Definition delete_calls (tr : list Event) : list string :=
  omap (fun ev => match ev with EvDelete k => Some k | _ => None end) tr.

Definition callbacks_finished (tr : list Event) : list string :=
  omap (fun ev => match ev with
                  | EvLog (LogInvoked url _) | EvLog (LogFailed url _) => Some url
                  | _ => None
                  end) tr.

Definition posts (tr : list Event) : list (string * string) :=
  omap (fun ev => match ev with EvPost url body => Some (url, body) | _ => None end) tr.

(** The same sweep surroundings with another HTTP client. *)
Definition with_http (cenv : CronEnv) (http : HttpEnv) : CronEnv :=
  {| cron_now := cron_now cenv; cron_query := cron_query cenv;
     cron_delete := cron_delete cenv; cron_http := http;
     cron_order := cron_order cenv |}.

(** The results a sweep's iterator hands out. *)
Definition sweep_results (cenv : CronEnv) (s : Store) : list (string * DeadMansTrigger) :=
  it_pending (store_Run (cron_query cenv) s (cron_now cenv)).

(** Concrete surroundings and records for the closed statements. *)
Module Sample.
Import SampleUuid.

(** A handler environment in which the store does not fail. *)
Definition env_at (t : Time) : Env :=
  {| env_now := t;
     env_newV4 := id1;
     env_baseURL := "https://europe-west1-demo.cloudfunctions.net/deadman";
     env_get := None;
     env_put := None;
     env_delete := None |}.

Definition body_of (h : Z) : RequestBody :=
  JsonObject (Some h) (Some "http://example.org/hook") (Some "ping").

Definition trigger (id : string) (hours : Z) (checkin : Time) (url : string)
  : DeadMansTrigger :=
  {| Id := id;
     DueToFire := checkin + hours * Hour;
     HoursBetweenFire := hours;
     Checkins := [checkin];
     FireURL := url;
     FirePayload := "ping" |}.

Definition t0 : Time := 1700000000000000000.

(** One trigger, checked in at [t0], due an hour later. *)
Definition store1 : Store := {[ id1 := trigger id1 1 t0 "http://example.org/one" ]}.

(** Two triggers, due one and two hours after [t0]. *)
Definition store2 : Store :=
  <[ id2 := trigger id2 2 t0 "http://example.org/two" ]> store1.

Definition http_ok : HttpEnv :=
  {| NewRequest_error := fun _ => None; Do := fun _ _ => Ok 200 |}.

Definition http_down : HttpEnv :=
  {| NewRequest_error := fun _ => None;
     Do := fun _ _ => Err "dial tcp: connection refused" |}.

(** A sweep at time [t] whose query runs to its end and whose callbacks
    run in launch order; [del] tells which deletes fail. *)
Definition cron_at (t : Time) (del : nat -> option lib_error) (http : HttpEnv)
  : CronEnv :=
  {| cron_now := t; cron_query := None; cron_delete := del; cron_http := http;
     cron_order := [] |}.

(** The same, with the callbacks running in the order that [order]
    picks. *)
Definition cron_ordered (t : Time) (del : nat -> option lib_error) (http : HttpEnv)
    (order : list nat) : CronEnv :=
  {| cron_now := t; cron_query := None; cron_delete := del; cron_http := http;
     cron_order := order |}.

Definition no_failure : nat -> option lib_error := fun _ => None.
Definition unavailable : nat -> option lib_error :=
  fun _ => Some (Failure "rpc error: code = Unavailable").

Definition request (method path : string) : Request RequestBody :=
  {| Method := method; Path := path; Body := Undecodable "EOF" |}.

Definition bare (method path : string) : Request unit :=
  {| Method := method; Path := path; Body := tt |}.
End Sample.

(** ** Facts about the Go side *)

Lemma wrap64_small (z : Z) : int_min <= z <= int_max -> wrap64 z = z.
Proof.
  unfold wrap64, int_min, int_max. intros Hz.
  rewrite Z.mod_small; lia.
Qed.

Lemma int_mul_hours (h : Z) : hours_exact h -> int_mul h Hour = h * Hour.
Proof.
  unfold hours_exact, int_mul, Hour, Second. intros Hh.
  apply wrap64_small. unfold int_min, int_max. lia.
Qed.

(** The bound of [hours_exact] is the exact one. *)
Lemma hours_exact_fits (h : Z) : hours_exact h <-> int_min <= h * Hour <= int_max.
Proof. unfold hours_exact, int_min, int_max, Hour, Second. lia. Qed.

Lemma wrap64_range (z : Z) : int_min <= wrap64 z <= int_max.
Proof.
  unfold wrap64, int_min, int_max.
  pose proof (Z.mod_pos_bound (z + 2 ^ 63) (2 ^ 64) ltac:(lia)). lia.
Qed.

Lemma int_mul_hours_iff (h : Z) : int_mul h Hour = h * Hour <-> hours_exact h.
Proof.
  split; [|apply int_mul_hours].
  intros Heq. apply hours_exact_fits. rewrite <- Heq. apply wrap64_range.
Qed.

Lemma Truncate_Second (t : Time) : Truncate t Second = t - t mod Second.
Proof.
  unfold Truncate. change (Second <=? 0) with false. cbv iota.
  now rewrite Z.mod_add by (unfold Second; lia).
Qed.

Lemma Truncate_Second_whole (t : Time) : (Truncate t Second) mod Second = 0.
Proof.
  rewrite Truncate_Second.
  rewrite Zminus_mod, Z.mod_mod, Z.sub_diag by (unfold Second; lia).
  reflexivity.
Qed.

Lemma last_cons_default {A : Type} (l : list A) (x d : A) :
  List.last (x :: l) d = List.last l x.
Proof.
  revert x d. induction l as [|y l IH]; intros x d; [reflexivity|].
  change (List.last (x :: y :: l) d) with (List.last (y :: l) d).
  rewrite (IH y d), (IH y x). reflexivity.
Qed.

(** ** The lifecycle operations *)

Section LifecycleFacts.
Context `{UuidLib}.

(** What a check-in that succeeds has done. *)
Lemma checkinTrigger_ok (env : Env) (id : UUID) (s s' : Store) (w w' : Writer) :
  checkinTrigger env id s w = (None, s', w') ->
  exists old,
    s !! UUID_String id = Some old
    /\ let now := Truncate (env_now env) Second in
       let new := {| Id := Id old;
                     DueToFire := Add now (int_mul (HoursBetweenFire old) Hour);
                     HoursBetweenFire := HoursBetweenFire old;
                     Checkins := Checkins old ++ [now];
                     FireURL := FireURL old;
                     FirePayload := FirePayload old |} in
       s' = <[UUID_String id := new]> s /\ w' = sendEntity w new.
Proof.
  unfold checkinTrigger, store_Get, store_Put. intros Hrun.
  destruct (env_get env) as [e|].
  { destruct (decide (e = ErrNoSuchEntity)); discriminate. }
  destruct (s !! UUID_String id) as [old|] eqn:Hold.
  2: { destruct (decide (ErrNoSuchEntity = ErrNoSuchEntity)); discriminate. }
  destruct (env_put env) as [e|]; [discriminate|].
  injection Hrun as <- <-. exists old. auto.
Qed.

(** What a create that succeeds has done. *)
Lemma createTrigger_ok (env : Env) (body : RequestBody) (s s' : Store) (w w' : Writer) :
  createTrigger env body s w = (None, s', w') ->
  exists input,
    Decode body = Ok input
    /\ let now := Truncate (env_now env) Second in
       let new := {| Id := UUID_String (env_newV4 env);
                     DueToFire := Add now (int_mul (in_HoursBetweenFire input) Hour);
                     HoursBetweenFire := in_HoursBetweenFire input;
                     Checkins := [now];
                     FireURL := in_FireURL input;
                     FirePayload := in_FirePayload input |} in
       s' = <[UUID_String (env_newV4 env) := new]> s.
Proof.
  unfold createTrigger, store_Put. intros Hrun.
  destruct (Decode body) as [input|msg]; [|discriminate].
  destruct (env_put env) as [e|]; [discriminate|].
  injection Hrun as <- _. exists input. auto.
Qed.

Lemma successful_mutation_record (env : Env) (s s' : Store) (key : string) :
  successful_mutation env s s' key ->
  exists e,
    s' !! key = Some e
    /\ last (Checkins e) = Some (Truncate (env_now env) Second)
    /\ DueToFire e
       = Add (Truncate (env_now env) Second) (int_mul (HoursBetweenFire e) Hour).
Proof.
  intros [(body & w & w' & Hrun & ->) | (id & w & w' & Hrun & ->)].
  - apply createTrigger_ok in Hrun as (input & _ & ->).
    eexists. rewrite lookup_insert_eq. split; [reflexivity|]. simpl. auto.
  - apply checkinTrigger_ok in Hrun as (old & _ & -> & _).
    eexists. rewrite lookup_insert_eq. split; [reflexivity|]. simpl.
    rewrite last_snoc. auto.
Qed.

(** A run of check-ins leaves a record whose interval is the one it had,
    and whose due time was computed at the last of them. *)
Lemma checkin_all_record (envs : list Env) (env0 : Env) (id : UUID)
    (s s' : Store) (e0 : DeadMansTrigger) :
  s !! UUID_String id = Some e0 ->
  DueToFire e0
  = Add (Truncate (env_now env0) Second) (int_mul (HoursBetweenFire e0) Hour) ->
  checkin_all envs id s = Some s' ->
  exists e,
    s' !! UUID_String id = Some e
    /\ HoursBetweenFire e = HoursBetweenFire e0
    /\ DueToFire e
       = Add (Truncate (last_now env0 envs) Second) (int_mul (HoursBetweenFire e0) Hour).
Proof.
  revert env0 s e0. induction envs as [|env envs IH]; intros env0 s e0 Hs Hdue Hall.
  - injection Hall as <-. exists e0. auto.
  - cbn [checkin_all] in Hall.
    destruct (checkinTrigger env id s fresh_writer) as [[[err|] s1] w1] eqn:Hrun;
      [discriminate|].
    apply checkinTrigger_ok in Hrun as (old & Hold & -> & _).
    rewrite Hs in Hold. injection Hold as <-.
    match type of Hall with
    | checkin_all _ _ (<[_ := ?new]> _) = _ =>
        destruct (IH env _ new (lookup_insert_eq _ _ _) eq_refl Hall)
          as (e & He & Hh & Hd)
    end.
    exists e. split; [exact He|]. split; [exact Hh|].
    unfold last_now in *. rewrite last_cons_default. exact Hd.
Qed.

End LifecycleFacts.

(** ** Due time *)

(** C1, as amended. After a create or a check-in that succeeds at clock
    reading [t], the record written has [t] truncated to the second as the
    last of its check-ins, and its due time is that instant plus
    [HoursBetweenFire] hours, provided the interval counts at most 2562047
    hours in absolute value (so that its nanoseconds fit 64 bits). The same
    holds after a create followed by any number of check-ins, at the time of
    the last of them. *)
Theorem due_time_after_mutation `{UuidLib} :
  (forall (env : Env) (s s' : Store) (key : string),
      successful_mutation env s s' key ->
      exists e,
        s' !! key = Some e
        /\ last (Checkins e) = Some (Truncate (env_now env) Second)
        /\ (hours_exact (HoursBetweenFire e) ->
            DueToFire e = Truncate (env_now env) Second + HoursBetweenFire e * Hour))
  /\ (forall (env0 : Env) (envs : list Env) (body : RequestBody)
        (s s0 s' : Store) (w w0 : Writer),
         createTrigger env0 body s w = (None, s0, w0) ->
         checkin_all envs (env_newV4 env0) s0 = Some s' ->
         exists e input,
           s' !! UUID_String (env_newV4 env0) = Some e
           /\ Decode body = Ok input
           /\ HoursBetweenFire e = in_HoursBetweenFire input
           /\ (hours_exact (HoursBetweenFire e) ->
               DueToFire e
               = Truncate (last_now env0 envs) Second + HoursBetweenFire e * Hour)).
Proof.
  split.
  - intros env s s' key Hmut.
    destruct (successful_mutation_record env s s' key Hmut) as (e & He & Hlast & Hdue).
    exists e. split; [exact He|]. split; [exact Hlast|].
    intros Hh. rewrite Hdue, (int_mul_hours _ Hh). reflexivity.
  - intros env0 envs body s s0 s' w w0 Hcreate Hall.
    apply createTrigger_ok in Hcreate as (input & Hdec & ->).
    match type of Hall with
    | checkin_all _ _ (<[_ := ?new]> _) = _ =>
        destruct (checkin_all_record envs env0 _ _ _ new
                    (lookup_insert_eq _ _ _) eq_refl Hall) as (e & He & Hh & Hd)
    end.
    exists e, input. simpl in Hh, Hd.
    split; [exact He|]. split; [exact Hdec|]. split; [exact Hh|].
    intros Hex. rewrite Hd, <- Hh, (int_mul_hours _ Hex). reflexivity.
Qed.

(** Outside that range the equation fails: the amendment takes away no more
    than it has to. *)
Lemma due_time_exact_only_in_range `{UuidLib} (env : Env) (s s' : Store)
    (key : string) (e : DeadMansTrigger) :
  successful_mutation env s s' key ->
  s' !! key = Some e ->
  DueToFire e = Truncate (env_now env) Second + HoursBetweenFire e * Hour
  <-> hours_exact (HoursBetweenFire e).
Proof.
  intros Hmut He.
  destruct (successful_mutation_record env s s' key Hmut) as (e' & He' & _ & Hdue).
  rewrite He in He'. injection He' as <-.
  rewrite Hdue, <- int_mul_hours_iff. unfold Add. split; [lia|]. intros ->. reflexivity.
Qed.

(** A trigger created with an interval of 2562048 hours: the multiplication
    by [time.Hour] wraps around, and the due time lies before the
    check-in. *)
Lemma create_due_time_wraps :
  exists s' w' e,
    createTrigger (Sample.env_at 1700000000123456789) (Sample.body_of 2562048)
      ∅ fresh_writer = (None, s', w')
    /\ s' !! SampleUuid.id1 = Some e
    /\ last (Checkins e) = Some 1700000000000000000
    /\ HoursBetweenFire e = 2562048
    /\ DueToFire e = -7523371273709551616
    /\ DueToFire e <> 1700000000000000000 + HoursBetweenFire e * Hour.
Proof.
  do 3 eexists. split; [reflexivity|].
  split; [apply lookup_insert_eq|].
  repeat split; try reflexivity. vm_compute. discriminate.
Qed.

Lemma due_time_after_mutation_witness :
  exists e,
    (<[SampleUuid.id1 := Sample.trigger SampleUuid.id1 24 Sample.t0
                           "http://example.org/hook"]> ∅ : Store)
      !! SampleUuid.id1 = Some e
    /\ last (Checkins e) = Some Sample.t0
    /\ DueToFire e = Sample.t0 + 24 * Hour.
Proof.
  destruct (proj1 due_time_after_mutation (Sample.env_at (Sample.t0 + 5)) ∅
              (<[SampleUuid.id1 := Sample.trigger SampleUuid.id1 24 Sample.t0
                                     "http://example.org/hook"]> ∅)
              SampleUuid.id1) as (e & He & Hlast & Hdue).
  { left. exists (Sample.body_of 24), fresh_writer. eexists.
    split; reflexivity. }
  exists e. split; [exact He|]. split; [exact Hlast|].
  rewrite lookup_insert_eq in He. injection He as <-.
  apply Hdue. unfold hours_exact. simpl. lia.
Defined.

(** ** Check-in leaves the rest of the record alone *)

(** C10. A check-in that succeeds replaces the record of its key by one
    with the same [Id], [HoursBetweenFire], [FireURL] and [FirePayload],
    whose [Checkins] are the former ones with the truncated clock reading
    appended; [DueToFire] is recomputed, and no other record changes. *)
Theorem checkin_keeps_fields `{UuidLib} (env : Env) (id : UUID)
    (s s' : Store) (w w' : Writer) :
  checkinTrigger env id s w = (None, s', w') ->
  exists old new,
    s !! UUID_String id = Some old
    /\ s' !! UUID_String id = Some new
    /\ Id new = Id old
    /\ HoursBetweenFire new = HoursBetweenFire old
    /\ FireURL new = FireURL old
    /\ FirePayload new = FirePayload old
    /\ Checkins new = Checkins old ++ [Truncate (env_now env) Second]
    /\ DueToFire new
       = Add (Truncate (env_now env) Second) (int_mul (HoursBetweenFire old) Hour)
    /\ (forall k, k <> UUID_String id -> s' !! k = s !! k).
Proof.
  intros Hrun. apply checkinTrigger_ok in Hrun as (old & Hold & -> & _).
  exists old. eexists. split; [exact Hold|].
  split; [apply lookup_insert_eq|]. simpl.
  repeat split; try reflexivity.
  intros k Hk. apply lookup_insert_ne. congruence.
Qed.

Lemma checkin_keeps_fields_witness :
  exists old new,
    Sample.store2 !! SampleUuid.id1 = Some old
    /\ (<[SampleUuid.id1 :=
            {| Id := SampleUuid.id1;
               DueToFire := Sample.t0 + 1800 * Second + Hour;
               HoursBetweenFire := 1;
               Checkins := [Sample.t0; Sample.t0 + 1800 * Second];
               FireURL := "http://example.org/one";
               FirePayload := "ping" |}]> Sample.store2 : Store)
         !! SampleUuid.id1 = Some new
    /\ Id new = Id old
    /\ HoursBetweenFire new = HoursBetweenFire old
    /\ FireURL new = FireURL old
    /\ FirePayload new = FirePayload old
    /\ Checkins new = Checkins old ++ [Truncate (Sample.t0 + 1800 * Second + 7) Second]
    /\ DueToFire new
       = Add (Truncate (Sample.t0 + 1800 * Second + 7) Second)
           (int_mul (HoursBetweenFire old) Hour)
    /\ (forall k, k <> SampleUuid.id1 ->
          (<[SampleUuid.id1 :=
               {| Id := SampleUuid.id1;
                  DueToFire := Sample.t0 + 1800 * Second + Hour;
                  HoursBetweenFire := 1;
                  Checkins := [Sample.t0; Sample.t0 + 1800 * Second];
                  FireURL := "http://example.org/one";
                  FirePayload := "ping" |}]> Sample.store2 : Store) !! k
          = Sample.store2 !! k).
Proof.
  apply (checkin_keeps_fields (Sample.env_at (Sample.t0 + 1800 * Second + 7))
           SampleUuid.id1 Sample.store2 _ fresh_writer
           (sendEntity fresh_writer
              {| Id := SampleUuid.id1;
                 DueToFire := Sample.t0 + 1800 * Second + Hour;
                 HoursBetweenFire := 1;
                 Checkins := [Sample.t0; Sample.t0 + 1800 * Second];
                 FireURL := "http://example.org/one";
                 FirePayload := "ping" |})).
  vm_compute. reflexivity.
Defined.

(** ** What a create request is checked for *)

(** C3, as amended. A create fails with status 422, and leaves the store as
    it was, when the body does not decode into the input structure. A body
    that decodes is taken as it is: whatever the number of hours (zero and
    negative ones too) and whether or not the URL is there (an absent one is
    the empty string), the record is written and the answer is the
    redirect, provided the store accepts the write. *)
Theorem create_checks_decoding_only `{UuidLib} (env : Env) (s : Store) (w : Writer) :
  (forall body msg,
      Decode body = Err msg ->
      createTrigger env body s w
      = (Some (StatusErr {| StatusCode := StatusUnprocessableEntity; Message := msg |}),
         s, w))
  /\ (forall (h : Z) (u p : option string),
         int_min <= h <= int_max ->
         env_put env = None ->
         let now := Truncate (env_now env) Second in
         let key := UUID_String (env_newV4 env) in
         createTrigger env (JsonObject (Some h) u p) s w
         = (None,
            <[key := {| Id := key;
                        DueToFire := Add now (int_mul h Hour);
                        HoursBetweenFire := h;
                        Checkins := [now];
                        FireURL := default EmptyString u;
                        FirePayload := default EmptyString p |}]> s,
            WriteHeader StatusTemporaryRedirect
              (Header_Add "Location" (env_baseURL env +:+ "/triggers/" +:+ key) w))).
Proof.
  split.
  - intros body msg Hdec. unfold createTrigger. rewrite Hdec. reflexivity.
  - intros h u p Hh Hput now key. unfold createTrigger, Decode, store_Put.
    assert (Hin : in_int (default 0 (Some h)) = true).
    { unfold in_int. simpl. apply andb_true_intro. split; apply Z.leb_le; lia. }
    rewrite Hin, Hput. reflexivity.
Qed.

(** A create with zero hours, one with negative hours and one without a URL:
    each is stored and answered with the redirect. *)
Lemma create_accepts_unchecked_fields :
  (exists s' w',
      createTrigger (Sample.env_at Sample.t0) (Sample.body_of 0) ∅ fresh_writer
      = (None, s', w')
      /\ rw_status w' = Some StatusTemporaryRedirect
      /\ HoursBetweenFire <$> (s' !! SampleUuid.id1) = Some 0)
  /\ (exists s' w',
         createTrigger (Sample.env_at Sample.t0) (Sample.body_of (-3)) ∅ fresh_writer
         = (None, s', w')
         /\ rw_status w' = Some StatusTemporaryRedirect
         /\ HoursBetweenFire <$> (s' !! SampleUuid.id1) = Some (-3))
  /\ (exists s' w',
         createTrigger (Sample.env_at Sample.t0) (JsonObject (Some 24) None (Some "ping"))
           ∅ fresh_writer
         = (None, s', w')
         /\ rw_status w' = Some StatusTemporaryRedirect
         /\ FireURL <$> (s' !! SampleUuid.id1) = Some EmptyString).
Proof.
  repeat split; do 2 eexists; (split; [reflexivity|]);
    (split; [reflexivity|]); simpl; rewrite lookup_insert_eq; reflexivity.
Qed.

Lemma create_checks_decoding_only_witness :
  createTrigger (Sample.env_at Sample.t0)
    (Undecodable "invalid character 'x' looking for beginning of value")
    Sample.store1 fresh_writer
  = (Some (StatusErr {| StatusCode := 422;
                        Message := "invalid character 'x' looking for beginning of value" |}),
     Sample.store1, fresh_writer)
  /\ fst (fst (createTrigger (Sample.env_at Sample.t0) (JsonObject (Some 0) None None)
                 Sample.store1 fresh_writer)) = None.
Proof.
  split.
  - apply (proj1 (create_checks_decoding_only (Sample.env_at Sample.t0)
                    Sample.store1 fresh_writer)).
    reflexivity.
  - rewrite (proj2 (create_checks_decoding_only (Sample.env_at Sample.t0)
                      Sample.store1 fresh_writer) 0 None None).
    + reflexivity.
    + unfold int_min, int_max. lia.
    + reflexivity.
Defined.

(** ** Identifiers that no record answers to *)

(** C4, as amended. When the store holds no record for an identifier and
    answers the lookup, a get and a check-in fail with the 404 error and
    change nothing. A delete of such an identifier that the store carries
    out succeeds with 204 and changes nothing; and whatever the store does, a
    delete never fails with a [StatusCodeError]. *)
Theorem absent_id_outcomes `{UuidLib} (env : Env) (id : UUID) (s : Store) (w : Writer) :
  s !! UUID_String id = None ->
  (env_get env = None ->
   getTrigger env id s w = (Some (StatusErr notFound), s, w)
   /\ checkinTrigger env id s w = (Some (StatusErr notFound), s, w)
   /\ rw_status (report (Some (StatusErr notFound)) fresh_writer) = Some 404)
  /\ (env_delete env = None ->
      deleteTrigger env id s w = (None, s, WriteHeader StatusNoContent w))
  /\ (forall err s' w',
         deleteTrigger env id s w = (Some err, s', w') ->
         exists e, err = LibErr e).
Proof.
  intros Habs. split; [|split].
  - intros Hget. unfold getTrigger, checkinTrigger, store_Get.
    rewrite Hget, Habs.
    destruct (decide (ErrNoSuchEntity = ErrNoSuchEntity)); [|congruence].
    repeat split.
  - intros Hdel. unfold deleteTrigger, store_Delete. rewrite Hdel.
    rewrite (delete_id s _ Habs). reflexivity.
  - intros err s' w' Hrun. unfold deleteTrigger, store_Delete in Hrun.
    destruct (env_delete env) as [e|]; [|discriminate].
    injection Hrun as <- _ _. exists e. reflexivity.
Qed.

(** Deleting an identifier that was never created: no error, status 204. *)
Lemma delete_absent_succeeds :
  deleteTrigger (Sample.env_at Sample.t0) SampleUuid.id2 Sample.store1 fresh_writer
  = (None, Sample.store1,
     {| rw_header := []; rw_status := Some 204; rw_body := [] |})
  /\ HandleHTTP (Sample.env_at Sample.t0)
       (Sample.request "DELETE" ("/triggers/" +:+ SampleUuid.id2))
       Sample.store1 fresh_writer
     = (Sample.store1, {| rw_header := []; rw_status := Some 204; rw_body := [] |}).
Proof. split; vm_compute; reflexivity. Qed.

Lemma absent_id_outcomes_witness :
  getTrigger (Sample.env_at Sample.t0) SampleUuid.id2 Sample.store1 fresh_writer
  = (Some (StatusErr notFound), Sample.store1, fresh_writer)
  /\ checkinTrigger (Sample.env_at Sample.t0) SampleUuid.id2 Sample.store1 fresh_writer
     = (Some (StatusErr notFound), Sample.store1, fresh_writer)
  /\ rw_status (report (Some (StatusErr notFound)) (fresh_writer : Writer)) = Some 404.
Proof.
  apply (proj1 (absent_id_outcomes (Sample.env_at Sample.t0) SampleUuid.id2
                  Sample.store1 fresh_writer eq_refl)).
  reflexivity.
Defined.

(** ** The sweep *)

Section SweepFacts.

Lemma sweep_Delete_eq (cenv : CronEnv) (k : string) (w : Sweep) :
  sweep_Delete cenv k w
  = (cron_delete cenv (sw_deletes w),
     {| sw_store := match cron_delete cenv (sw_deletes w) with
                    | Some _ => sw_store w
                    | None => delete k (sw_store w)
                    end;
        sw_trace := sw_trace w ++ [EvDelete k];
        sw_wg := sw_wg w;
        sw_launched := sw_launched w;
        sw_deletes := S (sw_deletes w) |}).
Proof.
  unfold sweep_Delete, store_Delete.
  destruct (cron_delete cenv (sw_deletes w)); reflexivity.
Qed.

(** The loop never looks at the HTTP client. *)
Lemma cron_for_http (http : HttpEnv) pending : forall cenv final k target w,
  cron_for (with_http cenv http) pending final k target w
  = cron_for cenv pending final k target w.
Proof.
  induction pending as [|[k' target'] pending IH]; intros cenv final k target w;
    cbn [cron_for]; rewrite !sweep_Delete_eq; cbn [with_http cron_delete].
  - reflexivity.
  - apply IH.
Qed.

(** What the loop leaves behind. The error it ends with is the one of the
    iterator; the error of a delete is overwritten by the next call of
    [Next]. Every delete is asked for the key [k] of the first result. *)
Lemma cron_for_spec pending : forall cenv final k target w,
  let r := cron_for cenv pending final k target w in
  r.1 = Some final
  /\ sw_launched r.2
     = sw_launched w
       ++ map (fun t => (FireURL t, FirePayload t)) (target :: pending.*2)
  /\ delete_calls (sw_trace r.2)
     = delete_calls (sw_trace w) ++ replicate (S (length pending)) k
  /\ callbacks_finished (sw_trace r.2) = callbacks_finished (sw_trace w)
  /\ posts (sw_trace r.2) = posts (sw_trace w)
  /\ sw_wg r.2 = (sw_wg w + S (length pending))%nat
  /\ (sw_store r.2 = sw_store w \/ sw_store r.2 = delete k (sw_store w))
  /\ ((forall n, cron_delete cenv n = None) ->
      sw_store r.2 = delete k (sw_store w)).
Proof.
  induction pending as [|[k' target'] pending IH]; intros cenv final k target w;
    cbn [cron_for]; rewrite sweep_Delete_eq.
  - cbn. unfold delete_calls, callbacks_finished, posts.
    rewrite !omap_app, <- !app_assoc. cbn. rewrite !app_nil_r.
    repeat split; try reflexivity; try lia.
    + destruct (cron_delete cenv (sw_deletes w)); auto.
    + intros Hok. rewrite Hok. reflexivity.
  - match goal with
    | |- context [cron_for ?c pending ?f ?k ?t ?w1] =>
        destruct (IH c f k t w1) as (He & Hl & Hd & Hc & Hp & Hw & Hs & Hs')
    end.
    cbn zeta. cbn [sw_launched sw_trace sw_wg sw_store sw_deletes go wg_Add emit] in *.
    split; [exact He|].
    split; [rewrite Hl, <- app_assoc; reflexivity|].
    split.
    { rewrite Hd. unfold delete_calls. rewrite !omap_app, <- !app_assoc.
      reflexivity. }
    split.
    { rewrite Hc. unfold callbacks_finished. rewrite !omap_app.
      cbn. rewrite !app_nil_r. reflexivity. }
    split.
    { rewrite Hp. unfold posts. rewrite !omap_app.
      cbn. rewrite !app_nil_r. reflexivity. }
    split; [rewrite Hw; cbn [length]; lia|].
    split.
    + destruct (cron_delete cenv (sw_deletes w));
        destruct Hs as [-> | ->]; auto.
      right. apply delete_delete_eq.
    + intros Hok. rewrite (Hs' Hok), Hok. apply delete_delete_eq.
Qed.

Lemma fireHttpCallback_spec (http : HttpEnv) (url body : string) (w : Sweep) :
  let w' := fireHttpCallback http url body w in
  sw_store w' = sw_store w
  /\ delete_calls (sw_trace w') = delete_calls (sw_trace w)
  /\ callbacks_finished (sw_trace w') = callbacks_finished (sw_trace w) ++ [url]
  /\ sw_wg w' = Nat.pred (sw_wg w).
Proof.
  unfold fireHttpCallback, delete_calls, callbacks_finished.
  destruct (NewRequest_error http url); [|destruct (Do http url body)];
    cbn; rewrite !omap_app; cbn; rewrite ?app_nil_r; auto.
Qed.

Lemma fireHttpCallback_posts (http : HttpEnv) (url body : string) (w : Sweep) :
  posts (sw_trace (fireHttpCallback http url body w))
  = posts (sw_trace w)
    ++ match NewRequest_error http url with
       | None => [(url, body)]
       | Some _ => []
       end.
Proof.
  unfold fireHttpCallback, posts.
  destruct (NewRequest_error http url); [|destruct (Do http url body)];
    cbn; rewrite !omap_app; cbn; rewrite ?app_nil_r; reflexivity.
Qed.

(** Every order in which the callbacks run is a rearrangement of the
    callbacks launched. *)
Lemma run_order_Permutation {A : Type} (picks : list nat) : forall l : list A,
  run_order picks l ≡ₚ l.
Proof.
  induction picks as [|p picks IH]; intros l; cbn [run_order]; [reflexivity|].
  destruct (l !! (p mod length l)%nat) as [g|] eqn:Hg; [|reflexivity].
  rewrite IH. symmetry. apply delete_Permutation. exact Hg.
Qed.

Lemma run_order_nil {A : Type} (picks : list nat) : run_order picks (@nil A) = [].
Proof. destruct picks; reflexivity. Qed.

(** Waiting changes neither the store nor the deletes issued. *)
Lemma wait_for_store (http : HttpEnv) (l : list (string * string)) : forall w,
  sw_store (wait_for http l w) = sw_store w
  /\ delete_calls (sw_trace (wait_for http l w)) = delete_calls (sw_trace w).
Proof.
  induction l as [|[url body] l IH]; intros w; cbn [wait_for fst snd]; [auto|].
  destruct (sw_wg w =? 0)%nat; [auto|].
  destruct (IH (fireHttpCallback http url body w)) as (-> & ->).
  destruct (fireHttpCallback_spec http url body w) as (Hs & Hd & _). auto.
Qed.

(** Waiting on a counter that counts every running callback: all of them
    run, in the order given, and the counter comes down by their number. *)
Lemma wait_for_spec (http : HttpEnv) (l : list (string * string)) : forall w,
  (length l <= sw_wg w)%nat ->
  callbacks_finished (sw_trace (wait_for http l w))
  = callbacks_finished (sw_trace w) ++ l.*1
  /\ posts (sw_trace (wait_for http l w))
     = posts (sw_trace w)
       ++ omap (fun g => match NewRequest_error http g.1 with
                         | None => Some g
                         | Some _ => None
                         end) l
  /\ sw_wg (wait_for http l w) = (sw_wg w - length l)%nat
  /\ sw_launched (wait_for http l w) = [].
Proof.
  induction l as [|[url body] l IH]; intros w Hwg; cbn [wait_for fst snd].
  - cbn. rewrite !app_nil_r. repeat split; lia.
  - cbn [length] in Hwg.
    destruct (sw_wg w =? 0)%nat eqn:Hz; [apply Nat.eqb_eq in Hz; lia|].
    destruct (fireHttpCallback_spec http url body w) as (_ & _ & Hc1 & Hw1).
    pose proof (fireHttpCallback_posts http url body w) as Hp1.
    destruct (IH (fireHttpCallback http url body w)) as (Hc & Hp & Hw & Hl);
      [cbn zeta in Hw1; rewrite Hw1; lia|].
    cbn zeta in *. rewrite Hc, Hp, Hw, Hl, Hc1, Hp1, Hw1.
    cbn [fmap list_fmap fst snd length omap list_omap]. rewrite <- !app_assoc.
    repeat split; [|lia].
    destruct (NewRequest_error http url); reflexivity.
Qed.

(** Name the loop's result in the goal, and what [cron_for_spec] says of
    it. *)
Tactic Notation "loop_result" "as" simple_intropattern(pat) :=
  match goal with
  | |- context [cron_for ?c ?p ?f ?k ?t ?w0] =>
      destruct (cron_for_spec p c f k t w0) as pat;
      destruct (cron_for c p f k t w0) as [?err ?w1]
  end.

Lemma store_Run_final (flt : option (nat * lib_error)) (s : Store) (now : Time) :
  it_final (store_Run flt s now)
  = match flt with Some (_, e) => e | None => Done end.
Proof. destruct flt as [[n e]|]; reflexivity. Qed.

(** The error a sweep returns is the one the query ended with, and none
    when the query ran to its end: the outcome of the deletes plays no
    part in it. *)
Lemma ServeCron_error (cenv : CronEnv) (s : Store) :
  (ServeCron cenv s).1
  = match cron_query cenv with
    | Some (_, e) => if decide (e = Done) then None else Some (LibErr e)
    | None => None
    end.
Proof.
  pose proof (store_Run_final (cron_query cenv) s (cron_now cenv)) as Hfinal.
  unfold ServeCron, Next.
  destruct (it_pending (store_Run (cron_query cenv) s (cron_now cenv)))
    as [|[k target] pending]; cbn [it_pending it_final].
  - cbn [fst]. rewrite Hfinal.
    destruct (cron_query cenv) as [[n e]|]; reflexivity.
  - loop_result as (He & _). cbn [fst] in *. subst err. rewrite Hfinal.
    destruct (cron_query cenv) as [[n e]|]; reflexivity.
Qed.

(** A whole sweep, by the results of its query. When it returns, the
    counter is at zero and no callback is still running. *)
Lemma ServeCron_spec (cenv : CronEnv) (s : Store) :
  (sw_wg (ServeCron cenv s).2 = 0%nat /\ sw_launched (ServeCron cenv s).2 = [])
  /\ match sweep_results cenv s with
     | [] => sw_store (ServeCron cenv s).2 = s /\ sw_trace (ServeCron cenv s).2 = []
     | (k, target) :: pending =>
         delete_calls (sw_trace (ServeCron cenv s).2)
         = replicate (S (length pending)) k
         /\ callbacks_finished (sw_trace (ServeCron cenv s).2)
            ≡ₚ map (fun r => FireURL r.2) ((k, target) :: pending)
         /\ (sw_store (ServeCron cenv s).2 = s
             \/ sw_store (ServeCron cenv s).2 = delete k s)
         /\ ((forall n, cron_delete cenv n = None) ->
             sw_store (ServeCron cenv s).2 = delete k s)
     end.
Proof.
  unfold ServeCron, sweep_results, Next.
  destruct (it_pending (store_Run (cron_query cenv) s (cron_now cenv)))
    as [|[k target] pending].
  - unfold wg_Wait. cbn [fst snd sw_launched]. rewrite !run_order_nil. cbn. auto.
  - loop_result as (_ & Hl & Hd & Hc & _ & Hw & Hs & Hs').
    cbn [fst snd sw_launched sw_trace sw_wg sw_store it_pending it_final] in *.
    unfold wg_Wait. cbn [fst snd sw_launched sw_trace sw_wg sw_store].
    pose proof (run_order_Permutation (cron_order cenv) (sw_launched w1)) as Hperm.
    destruct (wait_for_store (cron_http cenv)
                (run_order (cron_order cenv) (sw_launched w1)) w1) as (Hs2 & Hd2).
    destruct (wait_for_spec (cron_http cenv)
                (run_order (cron_order cenv) (sw_launched w1)) w1)
      as (Hc2 & _ & Hw2 & Hl2).
    { rewrite Hperm, Hl, Hw. cbn [app]. rewrite length_map. cbn [length].
      rewrite length_fmap. lia. }
    rewrite Hs2, Hd2, Hc2, Hw2, Hl2, Hd, Hc, Hw, Hperm, Hl.
    cbn [app]. rewrite length_map. cbn [length]. rewrite length_fmap.
    split; [split; [lia|reflexivity]|]. split; [reflexivity|].
    split; [|split; assumption].
    cbn. rewrite <- !list_fmap_compose. reflexivity.
Qed.

(** The store a sweep leaves does not depend on the HTTP client. *)
Lemma ServeCron_store_http (cenv : CronEnv) (http : HttpEnv) (s : Store) :
  sw_store (ServeCron (with_http cenv http) s).2 = sw_store (ServeCron cenv s).2
  /\ delete_calls (sw_trace (ServeCron (with_http cenv http) s).2)
     = delete_calls (sw_trace (ServeCron cenv s).2).
Proof.
  unfold ServeCron, Next. cbn [with_http cron_query cron_now cron_http].
  destruct (it_pending (store_Run (cron_query cenv) s (cron_now cenv)))
    as [|[k target] pending].
  - unfold wg_Wait. cbn [fst snd sw_launched]. rewrite !run_order_nil. cbn. auto.
  - rewrite cron_for_http.
    match goal with
    | |- context [cron_for ?c ?p ?f ?k ?t ?w] =>
        destruct (cron_for c p f k t w) as [err w1]
    end.
    unfold wg_Wait. cbn [fst snd with_http cron_http cron_order].
    destruct (wait_for_store http (run_order (cron_order cenv) (sw_launched w1)) w1)
      as (-> & ->).
    destruct (wait_for_store (cron_http cenv)
                (run_order (cron_order cenv) (sw_launched w1)) w1) as (-> & ->).
    auto.
Qed.

End SweepFacts.

(** The query hands out the due records of the store, and nothing else. *)
Lemma query_results_due (s : Store) (now : Time) (k : string) (e : DeadMansTrigger) :
  (k, e) ∈ query_results s now <-> s !! k = Some e /\ DueToFire e <= now.
Proof.
  unfold query_results. rewrite merge_sort_Permutation.
  rewrite list_elem_of_filter, elem_of_map_to_list. unfold due_by. cbn. tauto.
Qed.

(** A record that the query hands out after the first one is still in the
    store when the sweep is over. *)
Lemma sweep_misses_later (cenv : CronEnv) (s : Store)
    (k k' : string) (t e' : DeadMansTrigger) (pending : list (string * DeadMansTrigger)) :
  sweep_results cenv s = (k, t) :: pending ->
  k' <> k ->
  s !! k' = Some e' ->
  sw_store (ServeCron cenv s).2 !! k' = Some e'.
Proof.
  intros Hres Hne Hk'.
  destruct (ServeCron_spec cenv s) as (_ & Hspec). rewrite Hres in Hspec.
  destruct Hspec as (_ & _ & [-> | ->] & _); [exact Hk'|].
  rewrite lookup_delete_ne; [exact Hk'|congruence].
Qed.

(** The example of the sweep with one trigger due an hour ago and one due in
    an hour: one callback, and the second trigger is what stays. *)
Example sweep_one_due_one_pending :
  exists w,
    ServeCron (Sample.cron_at (Sample.t0 + 2 * Hour) Sample.no_failure Sample.http_ok)
      (<[SampleUuid.id2 := Sample.trigger SampleUuid.id2 3 Sample.t0
                             "http://example.org/two"]> Sample.store1)
    = (None, w)
    /\ posts (sw_trace w) = [("http://example.org/one", "ping")]
    /\ sw_store w
       = {[ SampleUuid.id2 := Sample.trigger SampleUuid.id2 3 Sample.t0
                                "http://example.org/two" ]}.
Proof. eexists. split; [reflexivity|]. split; vm_compute; reflexivity. Qed.

(** A sweep while the callback's host is down: the failure is logged, the
    trigger is deleted, the sweep reports no error. *)
Example sweep_with_client_down :
  ServeCron (Sample.cron_at (Sample.t0 + 3 * Hour) Sample.no_failure Sample.http_down)
    Sample.store1
  = (None,
     {| sw_store := ∅;
        sw_trace := [EvLog (LogFiring SampleUuid.id1 "http://example.org/one");
                     EvDelete SampleUuid.id1;
                     EvPost "http://example.org/one" "ping";
                     EvLog (LogFailed "http://example.org/one"
                              "dial tcp: connection refused")];
        sw_wg := 0;
        sw_launched := [];
        sw_deletes := 1 |}).
Proof. vm_compute. reflexivity. Qed.

(** C2, where the code departs from it. Two triggers are due. The sweep
    posts both callbacks, asks the store twice to delete the first key, and
    returns no error: the second trigger, fired, is still in the store. *)
Theorem sweep_keeps_second_due_trigger :
  exists w,
    ServeCron (Sample.cron_at (Sample.t0 + 3 * Hour) Sample.no_failure Sample.http_ok)
      Sample.store2
    = (None, w)
    /\ posts (sw_trace w)
       = [("http://example.org/one", "ping"); ("http://example.org/two", "ping")]
    /\ delete_calls (sw_trace w) = [SampleUuid.id1; SampleUuid.id1]
    /\ sw_store w
       = {[ SampleUuid.id2 := Sample.trigger SampleUuid.id2 2 Sample.t0
                                "http://example.org/two" ]}.
Proof.
  eexists. split; [reflexivity|].
  repeat split; vm_compute; reflexivity.
Qed.

(** C5, where the code departs from it. One trigger is due and the store
    refuses the delete. The sweep returns no error, and the trigger is still
    in the store. *)
Theorem sweep_drops_delete_error :
  exists w,
    ServeCron (Sample.cron_at (Sample.t0 + 3 * Hour) Sample.unavailable Sample.http_ok)
      Sample.store1
    = (None, w)
    /\ delete_calls (sw_trace w) = [SampleUuid.id1]
    /\ Sample.unavailable 0%nat = Some (Failure "rpc error: code = Unavailable")
    /\ sw_store w = Sample.store1.
Proof.
  eexists. split; [reflexivity|].
  repeat split; vm_compute; reflexivity.
Qed.

(** The loop never reads how a callback ended: with any other HTTP client
    the sweep returns the same error, leaves the same store and asks for
    the same deletes, one per result of the query. *)
Lemma sweep_ignores_callback_outcome (cenv : CronEnv) (http : HttpEnv) (s : Store) :
  (ServeCron (with_http cenv http) s).1 = (ServeCron cenv s).1
  /\ sw_store (ServeCron (with_http cenv http) s).2 = sw_store (ServeCron cenv s).2
  /\ delete_calls (sw_trace (ServeCron (with_http cenv http) s).2)
     = delete_calls (sw_trace (ServeCron cenv s).2)
  /\ length (delete_calls (sw_trace (ServeCron cenv s).2))
     = length (sweep_results cenv s).
Proof.
  split; [rewrite !ServeCron_error; reflexivity|].
  destruct (ServeCron_store_http cenv http s) as (Hstore & Hdel).
  split; [exact Hstore|]. split; [exact Hdel|].
  destruct (ServeCron_spec cenv s) as (_ & Hspec).
  destruct (sweep_results cenv s) as [|[k target] pending].
  - destruct Hspec as (_ & ->). reflexivity.
  - destruct Hspec as (-> & _). rewrite length_replicate. reflexivity.
Qed.

(** C6, where the code departs from it. Two triggers are due and the
    HTTP client is down, so that each callback fails. In whichever order
    the two callbacks run, the sweep returns no error and both callbacks
    run to their end; but the delete of the second trigger, whose callback
    failed, is never asked of the store: both deletes name the key of the
    first trigger, and the second trigger is still in the store. *)
Theorem failed_callback_trigger_not_deleted (order : list nat) :
  Do Sample.http_down "http://example.org/two" "ping"
  = Err "dial tcp: connection refused"
  /\ (ServeCron (Sample.cron_ordered (Sample.t0 + 3 * Hour) Sample.no_failure
                   Sample.http_down order) Sample.store2).1 = None
  /\ ("http://example.org/two"
      ∈ callbacks_finished
          (sw_trace (ServeCron (Sample.cron_ordered (Sample.t0 + 3 * Hour)
                                  Sample.no_failure Sample.http_down order)
                       Sample.store2).2))
  /\ delete_calls
       (sw_trace (ServeCron (Sample.cron_ordered (Sample.t0 + 3 * Hour)
                               Sample.no_failure Sample.http_down order)
                    Sample.store2).2)
     = [SampleUuid.id1; SampleUuid.id1]
  /\ (SampleUuid.id2
      ∉ delete_calls
          (sw_trace (ServeCron (Sample.cron_ordered (Sample.t0 + 3 * Hour)
                                  Sample.no_failure Sample.http_down order)
                       Sample.store2).2))
  /\ sw_store (ServeCron (Sample.cron_ordered (Sample.t0 + 3 * Hour)
                            Sample.no_failure Sample.http_down order)
                 Sample.store2).2 !! SampleUuid.id2
     = Some (Sample.trigger SampleUuid.id2 2 Sample.t0 "http://example.org/two").
Proof.
  split; [reflexivity|].
  split; [rewrite ServeCron_error; reflexivity|].
  destruct (ServeCron_spec (Sample.cron_ordered (Sample.t0 + 3 * Hour)
                              Sample.no_failure Sample.http_down order)
              Sample.store2) as (_ & Hspec).
  assert (Hres : sweep_results (Sample.cron_ordered (Sample.t0 + 3 * Hour)
                                  Sample.no_failure Sample.http_down order)
                   Sample.store2
                 = [(SampleUuid.id1,
                     Sample.trigger SampleUuid.id1 1 Sample.t0 "http://example.org/one");
                    (SampleUuid.id2,
                     Sample.trigger SampleUuid.id2 2 Sample.t0 "http://example.org/two")])
    by (vm_compute; reflexivity).
  rewrite Hres in Hspec. destruct Hspec as (Hd & Hc & _ & Hstore).
  split.
  { apply (elem_of_Permutation_proper _ _ _ Hc). right. left. }
  split; [exact Hd|].
  split.
  - rewrite Hd. intros Hin.
    apply elem_of_cons in Hin as [Heq | Hin]; [discriminate|].
    apply elem_of_cons in Hin as [Heq | Hin]; [discriminate|].
    inversion Hin.
  - rewrite (Hstore (fun n => eq_refl)). rewrite lookup_delete_ne by discriminate.
    apply lookup_insert_eq.
Qed.

(** ** The router of the service *)

Section RouterFacts.
Context `{UuidLib}.

(** A path whose third segment is not a UUID: the 404 error, whatever the
    method, and no operation runs. *)
Lemma route_malformed_id (env : Env) (rq : Request RequestBody) (s : Store)
    (rw : Writer) (a b idseg : string) (rest : list string) (id : UUID) (msg : string) :
  Split (Path rq) = a :: b :: idseg :: rest ->
  FromString idseg = (id, Some msg) ->
  route env rq s rw = (Some (StatusErr notFound), s, rw).
Proof.
  intros Hsplit Hparse. unfold route. rewrite Hsplit.
  cbn [List.length seg nth].
  destruct (String.eqb b "triggers");
    destruct rest as [|x [|y rest]]; cbn; rewrite ?Hparse; reflexivity.
Qed.

(** The answer to a request the router gives the 404 error to. *)
Lemma HandleHTTP_malformed_id (env : Env) (rq : Request RequestBody) (s : Store)
    (a b idseg : string) (rest : list string) (id : UUID) (msg : string) :
  Split (Path rq) = a :: b :: idseg :: rest ->
  FromString idseg = (id, Some msg) ->
  HandleHTTP env rq s fresh_writer
  = (s, {| rw_header := [("Content-Type", "text/plain;charset=UTF-8");
                         ("Content-Length", "36")];
           rw_status := Some 404;
           rw_body := [Text "The requested URL could not be found"] |}).
Proof.
  intros Hsplit Hparse. unfold HandleHTTP.
  rewrite (route_malformed_id env rq s _ _ _ _ _ _ _ Hsplit Hparse).
  reflexivity.
Qed.

(** An unknown identifier gets the very same answer from a get. *)
Lemma HandleHTTP_unknown_id (env : Env) (rq : Request RequestBody) (s : Store)
    (a idseg : string) (id : UUID) :
  Split (Path rq) = [a; "triggers"; idseg] ->
  FromString idseg = (id, None) ->
  Method rq = "GET" ->
  env_get env = None ->
  s !! UUID_String id = None ->
  HandleHTTP env rq s fresh_writer
  = (s, {| rw_header := [("Content-Type", "text/plain;charset=UTF-8");
                         ("Content-Length", "36")];
           rw_status := Some 404;
           rw_body := [Text "The requested URL could not be found"] |}).
Proof.
  intros Hsplit Hparse Hm Hget Habs. unfold HandleHTTP, route.
  rewrite Hsplit. cbn [List.length seg nth]. rewrite Hparse, Hm.
  cbn. unfold getTrigger, store_Get. rewrite Hget, Habs.
  destruct (decide (ErrNoSuchEntity = ErrNoSuchEntity)); [|congruence].
  reflexivity.
Qed.

(** The methods the router of the service knows, path by path. *)
Lemma route_method_not_allowed (env : Env) (rq : Request RequestBody) (s : Store)
    (rw : Writer) (a : string) :
  (Split (Path rq) = [a; "triggers"] ->
   Method rq <> "POST" ->
   route env rq s rw = (Some (methodNotAllowed "POST"), s, rw))
  /\ (forall idseg id,
         Split (Path rq) = [a; "triggers"; idseg] ->
         FromString idseg = (id, None) ->
         Method rq <> "GET" -> Method rq <> "DELETE" ->
         route env rq s rw = (Some (methodNotAllowed "GET, DELETE"), s, rw))
  /\ (forall idseg id,
         Split (Path rq) = [a; "triggers"; idseg; "checkin"] ->
         FromString idseg = (id, None) ->
         Method rq <> "POST" ->
         route env rq s rw = (Some (methodNotAllowed "POST"), s, rw)).
Proof.
  unfold route. repeat split.
  - intros Hsplit Hm. rewrite Hsplit. cbn.
    apply String.eqb_neq in Hm. rewrite Hm. reflexivity.
  - intros idseg id Hsplit Hparse Hg Hd. rewrite Hsplit.
    cbn [List.length seg nth]. rewrite Hparse.
    apply String.eqb_neq in Hg, Hd. cbn. rewrite Hg, Hd. reflexivity.
  - intros idseg id Hsplit Hparse Hm. rewrite Hsplit.
    cbn [List.length seg nth]. rewrite Hparse.
    apply String.eqb_neq in Hm. cbn. rewrite Hm. reflexivity.
Qed.

End RouterFacts.

(** The service's router on concrete paths. *)
Example service_router_methods :
  (HandleHTTP (Sample.env_at Sample.t0) (Sample.request "PUT" "/triggers")
     Sample.store1 fresh_writer).2
  = {| rw_header := [("Content-Type", "text/plain;charset=UTF-8");
                     ("Content-Length", "62")];
       rw_status := Some 405;
       rw_body := [Text "The requested method is not available. Available methods: POST"] |}
  /\ (HandleHTTP (Sample.env_at Sample.t0)
        (Sample.request "PATCH" ("/triggers/" +:+ SampleUuid.id1))
        Sample.store1 fresh_writer).2
     = {| rw_header := [("Content-Type", "text/plain;charset=UTF-8");
                        ("Content-Length", "69")];
          rw_status := Some 405;
          rw_body := [Text "The requested method is not available. Available methods: GET, DELETE"] |}
  /\ (HandleHTTP (Sample.env_at Sample.t0)
        (Sample.request "GET" ("/triggers/" +:+ SampleUuid.id1 +:+ "/checkin"))
        Sample.store1 fresh_writer).2
     = {| rw_header := [("Content-Type", "text/plain;charset=UTF-8");
                        ("Content-Length", "62")];
          rw_status := Some 405;
          rw_body := [Text "The requested method is not available. Available methods: POST"] |}
  /\ rw_status (HandleHTTP (Sample.env_at Sample.t0)
                  (Sample.request "PATCH" "/triggers/not-a-uuid")
                  Sample.store1 fresh_writer).2 = Some 404.
Proof. repeat split. Qed.

(** ** The router of [handler.go] *)

Lemma MethodNotAllowed_Error_never_returns (fuel : nat) (m : list string) :
  Handler.MethodNotAllowed_Error fuel m = None.
Proof.
  induction fuel as [|fuel IH]; [reflexivity|].
  cbn [Handler.MethodNotAllowed_Error]. rewrite IH. reflexivity.
Qed.

Lemma handler_report_method_not_allowed `{UuidLib} (fuel : nat) (m : list string)
    (rw : Handler.Writer) :
  Handler.report fuel (Some (Handler.MethodNotAllowed m)) rw = None.
Proof.
  unfold Handler.report, Handler.Error.
  rewrite MethodNotAllowed_Error_never_returns. reflexivity.
Qed.

(** C9. In [handler.go], a GET or a DELETE on the path [triggers/{id}] runs
    the get or the delete operation exactly when [{id}] does not parse as a
    UUID; when it parses, no operation runs and the answer is 404. *)
Theorem handler_id_test_inverted `{UuidLib} (rq : Request unit) (rw : Handler.Writer)
    (idseg : string) :
  Split (Path rq) = ["triggers"; idseg] ->
  Method rq = "GET" \/ Method rq = "DELETE" ->
  (forall id msg,
      FromString idseg = (id, Some msg) ->
      Handler.route rq rw
      = (if String.eqb (Method rq) "GET" then Handler.getTrigger id rw
         else Handler.deleteTrigger id rw)
      /\ forall fuel,
          Handler.HandleHTTP fuel rq rw
          = Some (Write (Text (if String.eqb (Method rq) "GET"
                               then "GetTrigger" else "DeleteTrigger")) rw))
  /\ (forall id,
         FromString idseg = (id, None) ->
         Handler.route rq rw = (Some Handler.NotFound, rw)
         /\ forall fuel,
             Handler.HandleHTTP fuel rq rw
             = Some (Write (Text "The requested resource could not be found")
                       (WriteHeader StatusNotFound
                          (Header_Add "Content-Length" "41"
                             (Header_Add "Content-Type" "text/plain;charset=UTF-8" rw))))).
Proof.
  intros Hsplit Hm. unfold Handler.HandleHTTP, Handler.route. rewrite Hsplit.
  cbn [List.length seg nth]. split.
  - intros id msg Hparse. rewrite Hparse.
    destruct Hm as [-> | ->]; cbn; auto.
  - intros id Hparse. rewrite Hparse. cbn. auto.
Qed.

Lemma handler_id_test_inverted_witness :
  (Handler.route (Sample.bare "GET" "triggers/not-a-uuid") fresh_writer
   = Handler.getTrigger (EmptyString : @UUID SampleUuid.lib) fresh_writer)
  /\ (Handler.HandleHTTP 1 (Sample.bare "DELETE" ("triggers/" +:+ SampleUuid.id1))
        fresh_writer
      = Some {| rw_header := [("Content-Type", "text/plain;charset=UTF-8");
                              ("Content-Length", "41")];
                rw_status := Some 404;
                rw_body := [Text "The requested resource could not be found"] |}).
Proof.
  split.
  - apply (proj1 (handler_id_test_inverted (H := SampleUuid.lib)
                    (Sample.bare "GET" "triggers/not-a-uuid")
                    fresh_writer "not-a-uuid" eq_refl (or_introl eq_refl))
             (EmptyString : @UUID SampleUuid.lib)
             "uuid: incorrect UUID format" eq_refl).
  - apply (proj2 (handler_id_test_inverted (H := SampleUuid.lib)
                    (Sample.bare "DELETE" ("triggers/" +:+ SampleUuid.id1))
                    fresh_writer SampleUuid.id1 eq_refl (or_intror eq_refl))
             (SampleUuid.id1 : @UUID SampleUuid.lib) eq_refl).
Defined.

(** C7, where [handler.go] departs from it. A GET and a DELETE whose
    [{id}] is not a UUID are handed to the get and the delete operation and
    answered with 200; the router of the service answers the same paths
    with 404. *)
Theorem handler_runs_operation_on_malformed_id :
  (forall fuel,
      Handler.HandleHTTP fuel (Sample.bare "GET" "triggers/not-a-uuid") fresh_writer
      = Some {| rw_header := []; rw_status := Some 200;
                rw_body := [Text "GetTrigger"] |})
  /\ (forall fuel,
         Handler.HandleHTTP fuel (Sample.bare "DELETE" "triggers/not-a-uuid") fresh_writer
         = Some {| rw_header := []; rw_status := Some 200;
                   rw_body := [Text "DeleteTrigger"] |})
  /\ rw_status (HandleHTTP (Sample.env_at Sample.t0)
                  (Sample.request "GET" "/triggers/not-a-uuid")
                  Sample.store1 fresh_writer).2 = Some 404.
Proof. repeat split. Qed.

(** C8, where [handler.go] departs from it. With a UUID for [{id}], a PUT on
    [triggers/{id}] is answered with 404 and not with 405; and on the paths
    where the method error is set (here the collection and the check-in
    path), building its message does not return, so that no answer is
    written at all. *)
Theorem handler_method_error_missing :
  (forall fuel,
      Handler.HandleHTTP fuel (Sample.bare "PUT" ("triggers/" +:+ SampleUuid.id1))
        fresh_writer
      = Some {| rw_header := [("Content-Type", "text/plain;charset=UTF-8");
                              ("Content-Length", "41")];
                rw_status := Some 404;
                rw_body := [Text "The requested resource could not be found"] |})
  /\ (forall fuel,
         Handler.HandleHTTP fuel (Sample.bare "GET" "triggers") fresh_writer = None)
  /\ (forall fuel,
         Handler.HandleHTTP fuel
           (Sample.bare "GET" ("triggers/" +:+ SampleUuid.id1 +:+ "/checkin"))
           fresh_writer = None).
Proof.
  split; [reflexivity|].
  split; intros fuel; unfold Handler.HandleHTTP.
  - change (Handler.route (Sample.bare "GET" "triggers") fresh_writer)
      with (Some (Handler.MethodNotAllowed ["POST"]), fresh_writer : Handler.Writer).
    apply handler_report_method_not_allowed.
  - change (Handler.route
              (Sample.bare "GET" ("triggers/" +:+ SampleUuid.id1 +:+ "/checkin"))
              fresh_writer)
      with (Some (Handler.MethodNotAllowed ["POST"]), fresh_writer : Handler.Writer).
    apply handler_report_method_not_allowed.
Qed.

(** ** What a request can do *)

Section RequestEffects.
Context `{UuidLib}.

Lemma getTrigger_effect (env : Env) (id : UUID) (s : Store) (w : Writer) :
  effect env s w (getTrigger env id s w).
Proof.
  unfold getTrigger, store_Get.
  destruct (env_get env) as [e|].
  - destruct (decide (e = ErrNoSuchEntity)); apply effect_error; unfold error_kind; eauto.
  - destruct (s !! UUID_String id) as [ent|] eqn:Hs.
    + eapply effect_get. exact Hs.
    + destruct (decide (ErrNoSuchEntity = ErrNoSuchEntity));
        apply effect_error; unfold error_kind; eauto.
Qed.

Lemma checkinTrigger_effect (env : Env) (id : UUID) (s : Store) (w : Writer) :
  effect env s w (checkinTrigger env id s w).
Proof.
  unfold checkinTrigger, store_Get, store_Put.
  destruct (env_get env) as [e|].
  - destruct (decide (e = ErrNoSuchEntity)); apply effect_error; unfold error_kind; eauto.
  - destruct (s !! UUID_String id) as [old|] eqn:Hs.
    + destruct (env_put env) as [e|].
      * apply effect_error. unfold error_kind. eauto.
      * apply (effect_checkin env s w _ old Hs).
    + destruct (decide (ErrNoSuchEntity = ErrNoSuchEntity));
        apply effect_error; unfold error_kind; eauto.
Qed.

Lemma deleteTrigger_effect (env : Env) (id : UUID) (s : Store) (w : Writer) :
  effect env s w (deleteTrigger env id s w).
Proof.
  unfold deleteTrigger, store_Delete.
  destruct (env_delete env) as [e|].
  - apply effect_error. unfold error_kind. eauto.
  - apply effect_delete.
Qed.

Lemma createTrigger_effect (env : Env) (body : RequestBody) (s : Store) (w : Writer) :
  effect env s w (createTrigger env body s w).
Proof.
  unfold createTrigger, store_Put.
  destruct (Decode body) as [input|msg].
  - destruct (env_put env) as [e|].
    + apply effect_error. unfold error_kind. eauto.
    + apply (effect_create env s w input).
  - apply effect_error. unfold error_kind. eauto 6.
Qed.

Lemma route_effect (env : Env) (rq : Request RequestBody) (s : Store) (rw : Writer) :
  effect env s rw (route env rq s rw).
Proof.
  assert (Hnf : effect env s rw (Some (StatusErr notFound), s, rw)).
  { apply effect_error. unfold error_kind. auto. }
  assert (Hma : forall m, effect env s rw (Some (methodNotAllowed m), s, rw)).
  { intros m. apply effect_error. unfold error_kind. eauto. }
  unfold route.
  destruct (Split (Path rq)) as [|a [|b [|c [|d [|x rest]]]]];
    cbn [List.length Nat.leb andb seg nth]; try exact Hnf;
    destruct (String.eqb b "triggers"); try exact Hnf.
  - destruct (String.eqb (Method rq) "POST");
      [apply createTrigger_effect | apply Hma].
  - destruct (FromString c) as [id [msg|]]; [exact Hnf|].
    destruct (String.eqb (Method rq) "GET"); [apply getTrigger_effect|].
    destruct (String.eqb (Method rq) "DELETE"); [apply deleteTrigger_effect|].
    apply Hma.
  - destruct (FromString c) as [id [msg|]]; [exact Hnf|].
    destruct (String.eqb d "checkin"); [|exact Hnf].
    destruct (String.eqb (Method rq) "POST");
      [apply checkinTrigger_effect | apply Hma].
Qed.

Lemma error_kind_status (e : error) :
  error_kind e ->
  status_of e = 404 \/ status_of e = 405 \/ status_of e = 422 \/ status_of e = 500.
Proof.
  intros [-> | [[m ->] | [[msg ->] | [le ->]]]]; cbn; auto.
Qed.

Lemma report_error (e : error) :
  report (Some e) fresh_writer
  = {| rw_header := [("Content-Type", "text/plain;charset=UTF-8");
                     ("Content-Length", Itoa (String.length (Error e)))];
       rw_status := Some (status_of e);
       rw_body := [Text (Error e)] |}.
Proof. destruct e; reflexivity. Qed.

End RequestEffects.

(** X1. A request that ends in an error has changed nothing: the store is
    the one before the request, and the operation has written nothing to the
    response, so that the error response is all the client gets. *)
Theorem failed_request_changes_nothing `{UuidLib} (env : Env)
    (rq : Request RequestBody) (s s' : Store) (rw rw' : Writer) (err : error) :
  route env rq s rw = (Some err, s', rw') ->
  s' = s /\ rw' = rw /\ HandleHTTP env rq s rw = (s, report (Some err) rw).
Proof.
  intros Hroute. pose proof (route_effect env rq s rw) as Heff.
  unfold HandleHTTP. rewrite Hroute in *.
  inversion Heff; subst. auto.
Qed.

Lemma failed_request_changes_nothing_witness :
  HandleHTTP (Sample.env_at Sample.t0)
    (Sample.request "POST" ("/triggers/" +:+ SampleUuid.id2 +:+ "/checkin"))
    Sample.store1 fresh_writer
  = (Sample.store1, report (Some (StatusErr notFound)) fresh_writer).
Proof.
  apply (failed_request_changes_nothing (Sample.env_at Sample.t0)
           (Sample.request "POST" ("/triggers/" +:+ SampleUuid.id2 +:+ "/checkin"))
           Sample.store1 Sample.store1 fresh_writer fresh_writer
           (StatusErr notFound)).
  reflexivity.
Defined.

(** X2. Every request is answered, and with one of seven status codes:
    200, 204, 307, 404, 405, 422 or 500. *)
Theorem every_request_answered `{UuidLib} (env : Env) (rq : Request RequestBody)
    (s : Store) :
  exists code,
    rw_status (HandleHTTP env rq s fresh_writer).2 = Some code
    /\ code ∈ [200; 204; 307; 404; 405; 422; 500].
Proof.
  pose proof (route_effect env rq s fresh_writer) as Heff.
  unfold HandleHTTP.
  destruct (route env rq s fresh_writer) as [[err s'] rw'].
  inversion Heff; subst; cbn [snd].
  - rewrite report_error. cbn [rw_status]. eexists. split; [reflexivity|].
    destruct (error_kind_status _ H1) as [-> | [-> | [-> | ->]]];
      set_solver.
  - eexists. split; [reflexivity|]. set_solver.
  - eexists. split; [reflexivity|]. set_solver.
  - eexists. split; [reflexivity|]. set_solver.
  - eexists. split; [reflexivity|]. set_solver.
Qed.

(** X3. A response with a status of 400 or more is a plain-text error
    response: its header fields are the content type and the content
    length, the length is that of the body, the body is the message of the
    error, and the store is as it was before the request. *)
Theorem error_response_shape `{UuidLib} (env : Env) (rq : Request RequestBody)
    (s : Store) (code : Z) :
  rw_status (HandleHTTP env rq s fresh_writer).2 = Some code ->
  400 <= code ->
  exists msg,
    HandleHTTP env rq s fresh_writer
    = (s, {| rw_header := [("Content-Type", "text/plain;charset=UTF-8");
                           ("Content-Length", Itoa (String.length msg))];
             rw_status := Some code;
             rw_body := [Text msg] |}).
Proof.
  pose proof (route_effect env rq s fresh_writer) as Heff.
  unfold HandleHTTP.
  destruct (route env rq s fresh_writer) as [[err s'] rw'].
  inversion Heff; subst; cbn [snd]; intros Hst Hge.
  - rewrite report_error in *. cbn [rw_status] in Hst. injection Hst as <-.
    exists (Error e). reflexivity.
  - cbn in Hst. injection Hst as <-. unfold StatusOK in Hge. lia.
  - cbn in Hst. injection Hst as <-. unfold StatusNoContent in Hge. lia.
  - cbn in Hst. injection Hst as <-. unfold StatusTemporaryRedirect in Hge. lia.
  - cbn in Hst. injection Hst as <-. unfold StatusOK in Hge. lia.
Qed.

Lemma error_response_shape_witness :
  exists msg,
    HandleHTTP (Sample.env_at Sample.t0) (Sample.request "PUT" "/triggers")
      Sample.store1 fresh_writer
    = (Sample.store1,
       {| rw_header := [("Content-Type", "text/plain;charset=UTF-8");
                        ("Content-Length", Itoa (String.length msg))];
          rw_status := Some 405;
          rw_body := [Text msg] |}).
Proof.
  apply (error_response_shape (Sample.env_at Sample.t0)
           (Sample.request "PUT" "/triggers") Sample.store1 405).
  - reflexivity.
  - lia.
Defined.

(** ** How the operations compose *)

Lemma Split_String (c : ascii) (rest : string) :
  Split (String c rest)
  = if Ascii.eqb c "/" then EmptyString :: Split rest
    else match Split rest with
         | seg :: segs => String c seg :: segs
         | [] => [String c EmptyString]
         end.
Proof. reflexivity. Qed.

(** A segment without a slash, a slash, and the rest of the path. *)
Lemma Split_segment (a x : string) :
  Split a = [a] -> Split (a +:+ String "/" x) = a :: Split x.
Proof.
  induction a as [|c a IH]; [reflexivity|].
  change (String c a +:+ String "/" x) with (String c (a +:+ String "/" x)).
  rewrite !Split_String.
  destruct (Ascii.eqb c "/"); [discriminate|].
  destruct (Split a) as [|seg0 segs] eqn:Hsa.
  - intros Ha. injection Ha as <-. discriminate Hsa.
  - intros Ha. injection Ha as -> ->. rewrite (IH eq_refl). reflexivity.
Qed.

(** X4. What a create stored is what a get of the new id returns: the
    answer to the create carries the one header field [Location], the base
    URL followed by [/triggers/] and the id; a get of that id (the store
    answering) returns status 200 with the JSON of a record that has the
    decoded hours, URL and payload, the creation second as its only
    check-in, and leaves the store as it is. When the UUID library reads
    back what it prints, the same holds for a GET request on the path of
    the location. *)
Theorem create_then_get `{UuidLib} (env env' : Env) (body : RequestBody)
    (s s' : Store) (w' : Writer) :
  createTrigger env body s fresh_writer = (None, s', w') ->
  env_get env' = None ->
  exists input,
    Decode body = Ok input
    /\ w' = {| rw_header := [("Location", env_baseURL env +:+ "/triggers/"
                                          +:+ UUID_String (env_newV4 env))];
               rw_status := Some 307;
               rw_body := [] |}
    /\ getTrigger env' (env_newV4 env) s' fresh_writer
       = (None, s',
          {| rw_header := [("Content-Type", "application/json")];
             rw_status := Some 200;
             rw_body := [Json (created env input)] |})
    /\ (forall id',
           FromString (UUID_String (env_newV4 env)) = (id', None) ->
           UUID_String id' = UUID_String (env_newV4 env) ->
           Split (UUID_String (env_newV4 env)) = [UUID_String (env_newV4 env)] ->
           HandleHTTP env'
             {| Method := "GET";
                Path := "/triggers/" +:+ UUID_String (env_newV4 env);
                Body := Undecodable EmptyString |} s' fresh_writer
           = (s', {| rw_header := [("Content-Type", "application/json")];
                     rw_status := Some 200;
                     rw_body := [Json (created env input)] |})).
Proof.
  intros Hcreate Hget.
  assert (Hw : exists input, Decode body = Ok input
            /\ s' = <[UUID_String (env_newV4 env) := created env input]> s
            /\ w' = WriteHeader StatusTemporaryRedirect
                      (Header_Add "Location"
                         (env_baseURL env +:+ "/triggers/"
                          +:+ UUID_String (env_newV4 env)) fresh_writer)).
  { unfold createTrigger, store_Put in Hcreate.
    destruct (Decode body) as [input|msg]; [|discriminate].
    destruct (env_put env) as [e|]; [discriminate|].
    injection Hcreate as <- <-. exists input. auto. }
  destruct Hw as (input & Hdec & -> & ->).
  assert (Hg : forall id, UUID_String id = UUID_String (env_newV4 env) ->
            getTrigger env' id
              (<[UUID_String (env_newV4 env) := created env input]> s) fresh_writer
            = (None, <[UUID_String (env_newV4 env) := created env input]> s,
               {| rw_header := [("Content-Type", "application/json")];
                  rw_status := Some 200;
                  rw_body := [Json (created env input)] |})).
  { intros id Hid. unfold getTrigger, store_Get.
    rewrite Hget, Hid, lookup_insert_eq. reflexivity. }
  exists input. split; [exact Hdec|]. split; [reflexivity|].
  split; [apply Hg; reflexivity|].
  intros id' Hparse Hprint Hseg. unfold HandleHTTP, route. cbn [Path Method].
  assert (Hsplit : Split ("/triggers/" +:+ UUID_String (env_newV4 env))
                   = [EmptyString; "triggers"; UUID_String (env_newV4 env)]).
  { change ("/triggers/" +:+ UUID_String (env_newV4 env))
      with (EmptyString +:+ String "/"
              ("triggers" +:+ String "/" (UUID_String (env_newV4 env)))).
    rewrite (Split_segment EmptyString), (Split_segment "triggers"), Hseg;
      reflexivity. }
  rewrite Hsplit. cbn [List.length Nat.leb andb seg nth].
  rewrite Hparse. cbn. rewrite (Hg id' Hprint). reflexivity.
Qed.

Lemma create_then_get_witness :
  HandleHTTP (Sample.env_at (Sample.t0 + 60 * Second))
    {| Method := "GET"; Path := "/triggers/" +:+ SampleUuid.id1;
       Body := Undecodable EmptyString |}
    (<[SampleUuid.id1 := Sample.trigger SampleUuid.id1 24 Sample.t0
                           "http://example.org/hook"]> ∅)
    fresh_writer
  = (<[SampleUuid.id1 := Sample.trigger SampleUuid.id1 24 Sample.t0
                           "http://example.org/hook"]> ∅,
     {| rw_header := [("Content-Type", "application/json")];
        rw_status := Some 200;
        rw_body := [Json (Sample.trigger SampleUuid.id1 24 Sample.t0
                            "http://example.org/hook")] |}).
Proof.
  destruct (create_then_get (Sample.env_at (Sample.t0 + 7))
              (Sample.env_at (Sample.t0 + 60 * Second)) (Sample.body_of 24) ∅
              (<[SampleUuid.id1 := Sample.trigger SampleUuid.id1 24 Sample.t0
                                     "http://example.org/hook"]> ∅)
              {| rw_header := [("Location",
                                "https://europe-west1-demo.cloudfunctions.net/deadman/triggers/"
                                +:+ SampleUuid.id1)];
                 rw_status := Some 307; rw_body := [] |}
              eq_refl eq_refl) as (input & Hdec & _ & _ & Hget).
  injection Hdec as <-.
  apply (Hget SampleUuid.id1); reflexivity.
Defined.

(** X5. After a delete that succeeded the id is gone: a get and a
    check-in of it answer with the 404 error, another delete succeeds
    again with 204 and changes nothing, and the records of all other keys
    are those from before the delete. *)
Theorem delete_then_absent `{UuidLib} (env env' : Env) (id : UUID)
    (s s' : Store) (w w' w2 : Writer) :
  deleteTrigger env id s w = (None, s', w') ->
  w' = WriteHeader StatusNoContent w
  /\ s' !! UUID_String id = None
  /\ (forall k, k <> UUID_String id -> s' !! k = s !! k)
  /\ (env_get env' = None ->
      getTrigger env' id s' w2 = (Some (StatusErr notFound), s', w2)
      /\ checkinTrigger env' id s' w2 = (Some (StatusErr notFound), s', w2))
  /\ (env_delete env' = None ->
      deleteTrigger env' id s' w2 = (None, s', WriteHeader StatusNoContent w2)).
Proof.
  intros Hdel. unfold deleteTrigger, store_Delete in Hdel.
  destruct (env_delete env) as [e|]; [discriminate|].
  injection Hdel as <- <-.
  split; [reflexivity|]. split; [apply lookup_delete_eq|].
  split; [intros k Hk; apply lookup_delete_ne; congruence|].
  split.
  - intros Hget. unfold getTrigger, checkinTrigger, store_Get.
    rewrite Hget, lookup_delete_eq.
    destruct (decide (ErrNoSuchEntity = ErrNoSuchEntity)); [auto|congruence].
  - intros Hdel. unfold deleteTrigger, store_Delete.
    rewrite Hdel, delete_delete_eq. reflexivity.
Qed.

Lemma delete_then_absent_witness :
  (delete SampleUuid.id1 Sample.store2 : Store) !! SampleUuid.id1 = None
  /\ getTrigger (Sample.env_at Sample.t0) SampleUuid.id1
       (delete SampleUuid.id1 Sample.store2) fresh_writer
     = (Some (StatusErr notFound), delete SampleUuid.id1 Sample.store2, fresh_writer).
Proof.
  destruct (delete_then_absent (Sample.env_at Sample.t0) (Sample.env_at Sample.t0)
              SampleUuid.id1 Sample.store2 (delete SampleUuid.id1 Sample.store2)
              fresh_writer (WriteHeader StatusNoContent fresh_writer) fresh_writer
              eq_refl) as (_ & Habs & _ & Hget & _).
  split; [exact Habs|]. exact (proj1 (Hget eq_refl)).
Defined.

(** X6. A failure of the store is answered with status 500 and the
    store's message, and nothing is changed: a get or a check-in whose
    read fails with anything but "no such entity", a check-in or a create
    whose write fails, and a delete that fails, each return the store's
    error as it is, with the store and the writer untouched. In particular
    a check-in whose write fails leaves the record as it was. *)
Theorem store_failure_answers_500 `{UuidLib} (env : Env) (id : UUID)
    (s : Store) (w : Writer) (e : lib_error) :
  (env_get env = Some e -> e <> ErrNoSuchEntity ->
   getTrigger env id s w = (Some (LibErr e), s, w)
   /\ checkinTrigger env id s w = (Some (LibErr e), s, w))
  /\ (env_get env = None -> is_Some (s !! UUID_String id) -> env_put env = Some e ->
      checkinTrigger env id s w = (Some (LibErr e), s, w))
  /\ (forall body input,
         Decode body = Ok input -> env_put env = Some e ->
         createTrigger env body s w = (Some (LibErr e), s, w))
  /\ (env_delete env = Some e ->
      deleteTrigger env id s w = (Some (LibErr e), s, w))
  /\ report (Some (LibErr e)) fresh_writer
     = {| rw_header := [("Content-Type", "text/plain;charset=UTF-8");
                        ("Content-Length", Itoa (String.length (lib_error_Error e)))];
          rw_status := Some 500;
          rw_body := [Text (lib_error_Error e)] |}.
Proof.
  repeat split.
  - unfold getTrigger, store_Get. rewrite H0.
    destruct (decide (e = ErrNoSuchEntity)); [contradiction|reflexivity].
  - unfold checkinTrigger, store_Get. rewrite H0.
    destruct (decide (e = ErrNoSuchEntity)); [contradiction|reflexivity].
  - intros Hget [old Hold] Hput. unfold checkinTrigger, store_Get, store_Put.
    rewrite Hget, Hold, Hput. reflexivity.
  - intros body input Hdec Hput. unfold createTrigger, store_Put.
    rewrite Hdec, Hput. reflexivity.
  - intros Hdel. unfold deleteTrigger, store_Delete. rewrite Hdel. reflexivity.
Qed.

Lemma store_failure_answers_500_witness :
  checkinTrigger
    (@Build_Env SampleUuid.lib (Sample.t0 + 7) SampleUuid.id2 EmptyString None
       (Some (Failure "context deadline exceeded")) None)
    SampleUuid.id1 Sample.store1 fresh_writer
  = (Some (LibErr (Failure "context deadline exceeded")), Sample.store1, fresh_writer).
Proof.
  apply (proj1 (proj2 (store_failure_answers_500
                         (@Build_Env SampleUuid.lib (Sample.t0 + 7) SampleUuid.id2 EmptyString None
       (Some (Failure "context deadline exceeded")) None)
                         SampleUuid.id1 Sample.store1 fresh_writer
                         (Failure "context deadline exceeded")))).
  - reflexivity.
  - eexists. reflexivity.
  - reflexivity.
Defined.

(** ** Paths the router does not know *)

(** X7. A path with fewer than two or more than four segments, a path
    whose second segment is not [triggers], and a four-segment path whose
    last segment is not [checkin] get the 404 error whatever the method
    and whatever the third segment; no operation runs. *)
Theorem unmatched_path_not_found `{UuidLib} (env : Env) (rq : Request RequestBody)
    (s : Store) (rw : Writer) :
  (length (Split (Path rq)) < 2)%nat
  \/ (4 < length (Split (Path rq)))%nat
  \/ seg (Split (Path rq)) 1 <> "triggers"
  \/ (length (Split (Path rq)) = 4%nat /\ seg (Split (Path rq)) 3 <> "checkin") ->
  route env rq s rw = (Some (StatusErr notFound), s, rw).
Proof.
  unfold route.
  destruct (Split (Path rq)) as [|a [|b [|c [|d [|x rest]]]]];
    cbn [List.length Nat.leb andb seg nth]; try reflexivity;
    intros [Hlt | [Hgt | [Hseg | [Hlen Hseg]]]];
    cbn [List.length] in *; try lia; try discriminate;
    try (apply String.eqb_neq in Hseg; rewrite Hseg; cbn;
         try destruct (String.eqb b "triggers"); cbn;
         try destruct (FromString c) as [id [msg|]]; reflexivity);
    destruct (String.eqb b "triggers"); reflexivity.
Qed.

Lemma unmatched_path_not_found_witness :
  route (Sample.env_at Sample.t0) (Sample.request "GET" "/") Sample.store1 fresh_writer
  = (Some (StatusErr notFound), Sample.store1, fresh_writer)
  /\ route (Sample.env_at Sample.t0)
       (Sample.request "POST" ("/triggers/" +:+ SampleUuid.id1 +:+ "/checkout"))
       Sample.store1 fresh_writer
     = (Some (StatusErr notFound), Sample.store1, fresh_writer).
Proof.
  split.
  - apply unmatched_path_not_found. right. right. left. discriminate.
  - apply unmatched_path_not_found. right. right. right.
    split; [reflexivity|discriminate].
Defined.

(** ** The history of check-ins *)

Lemma Truncate_Second_mono (t1 t2 : Time) :
  t1 <= t2 -> Truncate t1 Second <= Truncate t2 Second.
Proof.
  intros Hle. rewrite !Truncate_Second.
  rewrite !Z.mod_eq by (unfold Second; lia).
  pose proof (Z.div_le_mono t1 t2 Second ltac:(unfold Second; lia) Hle).
  unfold Second in *. lia.
Qed.

Lemma checkin_all_checkins `{UuidLib} (envs : list Env) (id : UUID)
    (s s' : Store) (e0 : DeadMansTrigger) :
  s !! UUID_String id = Some e0 ->
  checkin_all envs id s = Some s' ->
  exists e,
    s' !! UUID_String id = Some e
    /\ Checkins e
       = Checkins e0 ++ ((fun env => Truncate (env_now env) Second) <$> envs).
Proof.
  revert s e0. induction envs as [|env envs IH]; intros s e0 Hs Hall.
  - injection Hall as <-. exists e0. rewrite app_nil_r. auto.
  - cbn [checkin_all] in Hall.
    destruct (checkinTrigger env id s fresh_writer) as [[[err|] s1] w1] eqn:Hrun;
      [discriminate|].
    apply checkinTrigger_ok in Hrun as (old & Hold & -> & _).
    rewrite Hs in Hold. injection Hold as <-.
    match type of Hall with
    | checkin_all _ _ (<[_ := ?new]> _) = _ =>
        destruct (IH _ new (lookup_insert_eq _ _ _) Hall) as (e & He & Hc)
    end.
    exists e. split; [exact He|]. rewrite Hc. cbn. rewrite <- app_assoc. reflexivity.
Qed.

(** X8. After a create and [n] check-ins that succeeded, the record's
    check-ins are the [n + 1] clock readings of these requests, each
    truncated to the second, in the order of the requests; they are in
    non-decreasing order when the clock readings are. *)
Theorem checkin_history `{UuidLib} (env0 : Env) (envs : list Env)
    (body : RequestBody) (s s0 s' : Store) (w w0 : Writer) :
  createTrigger env0 body s w = (None, s0, w0) ->
  checkin_all envs (env_newV4 env0) s0 = Some s' ->
  exists e,
    s' !! UUID_String (env_newV4 env0) = Some e
    /\ Checkins e = (fun env => Truncate (env_now env) Second) <$> (env0 :: envs)
    /\ length (Checkins e) = S (length envs)
    /\ (StronglySorted Z.le (env_now <$> (env0 :: envs)) ->
        StronglySorted Z.le (Checkins e)).
Proof.
  intros Hcreate Hall.
  apply createTrigger_ok in Hcreate as (input & _ & ->).
  match type of Hall with
  | checkin_all _ _ (<[_ := ?new]> _) = _ =>
      destruct (checkin_all_checkins envs _ _ _ new (lookup_insert_eq _ _ _) Hall)
        as (e & He & Hc)
  end.
  exists e. split; [exact He|]. cbn [Checkins] in Hc.
  split; [exact Hc|]. split.
  - rewrite Hc. cbn. rewrite length_fmap. reflexivity.
  - intros Hsorted. rewrite Hc.
    replace ([Truncate (env_now env0) Second]
             ++ ((fun env => Truncate (env_now env) Second) <$> envs))
      with ((fun t => Truncate t Second) <$> (env_now <$> (env0 :: envs)))
      by (rewrite <- list_fmap_compose; reflexivity).
    apply (StronglySorted_fmap _ Z.le Z.le); [|exact Hsorted].
    intros x y. apply Truncate_Second_mono.
Qed.

Lemma checkin_history_witness :
  exists e,
    (<[SampleUuid.id1 :=
         {| Id := SampleUuid.id1;
            DueToFire := Sample.t0 + 60 * Second + 24 * Hour;
            HoursBetweenFire := 24;
            Checkins := [Sample.t0; Sample.t0 + 60 * Second];
            FireURL := "http://example.org/hook";
            FirePayload := "ping" |}]> ∅ : Store) !! SampleUuid.id1 = Some e
    /\ Checkins e = [Sample.t0; Sample.t0 + 60 * Second].
Proof.
  destruct (checkin_history (Sample.env_at (Sample.t0 + 7))
              [Sample.env_at (Sample.t0 + 60 * Second + 999)]
              (Sample.body_of 24) ∅
              (<[SampleUuid.id1 := Sample.trigger SampleUuid.id1 24 Sample.t0
                                     "http://example.org/hook"]> ∅)
              (<[SampleUuid.id1 :=
                   {| Id := SampleUuid.id1;
                      DueToFire := Sample.t0 + 60 * Second + 24 * Hour;
                      HoursBetweenFire := 24;
                      Checkins := [Sample.t0; Sample.t0 + 60 * Second];
                      FireURL := "http://example.org/hook";
                      FirePayload := "ping" |}]> ∅)
              fresh_writer
              (WriteHeader StatusTemporaryRedirect
                 (Header_Add "Location"
                    ("https://europe-west1-demo.cloudfunctions.net/deadman/triggers/"
                     +:+ SampleUuid.id1) fresh_writer)))
    as (e & He & Hc & _).
  - reflexivity.
  - vm_compute. reflexivity.
  - exists e. split; [exact He|]. rewrite Hc. vm_compute. reflexivity.
Defined.

(** Two check-ins within one second leave the same instant twice. *)
Example checkins_within_a_second :
  exists s',
    checkin_all [Sample.env_at (Sample.t0 + 100); Sample.env_at (Sample.t0 + 200)]
      SampleUuid.id1 Sample.store1 = Some s'
    /\ Checkins <$> (s' !! SampleUuid.id1) = Some [Sample.t0; Sample.t0; Sample.t0].
Proof. eexists. split; vm_compute; reflexivity. Qed.

(** X9. A check-in never moves the due time back, as long as the clock
    does not go back: after a create or a check-in at one clock reading, a
    check-in of the same trigger at a later reading moves the due time
    forward by the difference of the two readings, each truncated to the
    second. This holds for every interval, wrapped or not. *)
Theorem checkin_never_shortens_deadline `{UuidLib} (env1 env2 : Env) (id : UUID)
    (s0 s1 s2 : Store) (w w2 : Writer) (e1 : DeadMansTrigger) :
  successful_mutation env1 s0 s1 (UUID_String id) ->
  s1 !! UUID_String id = Some e1 ->
  env_now env1 <= env_now env2 ->
  checkinTrigger env2 id s1 w = (None, s2, w2) ->
  exists e2,
    s2 !! UUID_String id = Some e2
    /\ DueToFire e2 - DueToFire e1
       = Truncate (env_now env2) Second - Truncate (env_now env1) Second
    /\ DueToFire e1 <= DueToFire e2.
Proof.
  intros Hmut He1 Hle Hrun.
  destruct (successful_mutation_record env1 s0 s1 _ Hmut) as (e & He & _ & Hdue).
  rewrite He1 in He. injection He as <-.
  apply checkinTrigger_ok in Hrun as (old & Hold & -> & _).
  rewrite He1 in Hold. injection Hold as <-.
  eexists. split; [apply lookup_insert_eq|]. cbn [DueToFire].
  pose proof (Truncate_Second_mono _ _ Hle). rewrite Hdue. unfold Add. lia.
Qed.

Lemma checkin_never_shortens_deadline_witness :
  exists e2,
    (<[SampleUuid.id1 := checked_in (Sample.t0 + 1800 * Second)
                           (Sample.trigger SampleUuid.id1 24 Sample.t0
                              "http://example.org/hook")]>
       (<[SampleUuid.id1 := Sample.trigger SampleUuid.id1 24 Sample.t0
                              "http://example.org/hook"]> ∅) : Store)
      !! SampleUuid.id1 = Some e2
    /\ DueToFire e2 - (Sample.t0 + 24 * Hour)
       = Truncate (Sample.t0 + 1800 * Second + 5) Second - Truncate (Sample.t0 + 3) Second
    /\ Sample.t0 + 24 * Hour <= DueToFire e2.
Proof.
  apply (checkin_never_shortens_deadline (Sample.env_at (Sample.t0 + 3))
           (Sample.env_at (Sample.t0 + 1800 * Second + 5)) SampleUuid.id1 ∅
           (<[SampleUuid.id1 := Sample.trigger SampleUuid.id1 24 Sample.t0
                                  "http://example.org/hook"]> ∅)
           _ fresh_writer
           (sendEntity fresh_writer
              (checked_in (Sample.t0 + 1800 * Second)
                 (Sample.trigger SampleUuid.id1 24 Sample.t0 "http://example.org/hook")))
           (Sample.trigger SampleUuid.id1 24 Sample.t0 "http://example.org/hook")).
  - left. exists (Sample.body_of 24), fresh_writer. eexists. split; reflexivity.
  - apply lookup_insert_eq.
  - vm_compute. discriminate.
  - vm_compute. reflexivity.
Defined.

(** ** An invariant of the store *)

Section StoreInvariant.
Context `{UuidLib}.

Lemma created_ok (env : Env) (input : Input) :
  trigger_ok (UUID_String (env_newV4 env)) (created env input).
Proof.
  split; [reflexivity|]. split.
  - eexists. split; reflexivity.
  - cbn. repeat constructor. apply Truncate_Second_whole.
Qed.

Lemma checked_in_ok (k : string) (now : Time) (old : DeadMansTrigger) :
  trigger_ok k old -> trigger_ok k (checked_in (Truncate now Second) old).
Proof.
  intros (Hid & _ & Hwhole). split; [exact Hid|]. split.
  - eexists. cbn. rewrite last_snoc. split; reflexivity.
  - cbn. apply Forall_app. split; [exact Hwhole|].
    repeat constructor. apply Truncate_Second_whole.
Qed.

Lemma HandleHTTP_store_ok (env : Env) (rq : Request RequestBody) (s : Store)
    (rw : Writer) :
  store_ok s -> store_ok (HandleHTTP env rq s rw).1.
Proof.
  intros Hok. pose proof (route_effect env rq s rw) as Heff.
  unfold HandleHTTP. destruct (route env rq s rw) as [[err s'] rw'].
  cbn [fst]. inversion Heff; subst; try exact Hok.
  - apply map_Forall_delete. exact Hok.
  - apply map_Forall_insert_2; [apply created_ok | exact Hok].
  - apply map_Forall_insert_2; [|exact Hok].
    apply checked_in_ok. eapply map_Forall_lookup_1; eauto.
Qed.

Lemma ServeCron_store_ok (cenv : CronEnv) (s : Store) :
  store_ok s -> store_ok (sw_store (ServeCron cenv s).2).
Proof.
  intros Hok. destruct (ServeCron_spec cenv s) as (_ & Hspec).
  destruct (sweep_results cenv s) as [|[k target] pending].
  - destruct Hspec as (-> & _). exact Hok.
  - destruct Hspec as (_ & _ & [-> | ->] & _); [exact Hok|].
    apply map_Forall_delete. exact Hok.
Qed.

End StoreInvariant.

(** X10. In every store that requests and sweeps can lead to from the
    empty store, whatever the clock and the failures of store and
    network, each record is stored under its own id, has at least one
    check-in, has the due time that was computed from its last check-in and
    its interval, and has all its check-ins on whole seconds. *)
Theorem reachable_store_ok `{UuidLib} (s : Store) :
  reachable s ->
  forall k e,
    s !! k = Some e ->
    Id e = k
    /\ (exists t, last (Checkins e) = Some t
                  /\ DueToFire e = Add t (int_mul (HoursBetweenFire e) Hour))
    /\ Forall (fun t => t mod Second = 0) (Checkins e).
Proof.
  intros Hreach. change (store_ok s).
  induction Hreach as [|env rq s rw _ IH|cenv s _ IH].
  - apply map_Forall_empty.
  - apply HandleHTTP_store_ok. exact IH.
  - apply ServeCron_store_ok. exact IH.
Qed.

Lemma reachable_store_ok_witness :
  Id (Sample.trigger SampleUuid.id1 24 Sample.t0 "http://example.org/hook")
  = SampleUuid.id1
  /\ (exists t,
         last (Checkins (Sample.trigger SampleUuid.id1 24 Sample.t0
                           "http://example.org/hook")) = Some t
         /\ DueToFire (Sample.trigger SampleUuid.id1 24 Sample.t0
                         "http://example.org/hook")
            = Add t (int_mul 24 Hour))
  /\ Forall (fun t => t mod Second = 0) [Sample.t0].
Proof.
  apply (reachable_store_ok
           (HandleHTTP (Sample.env_at (Sample.t0 + 7))
              {| Method := "POST"; Path := "/triggers"; Body := Sample.body_of 24 |}
              ∅ fresh_writer).1
           (reachable_request _ _ _ _ reachable_empty)
           SampleUuid.id1).
  vm_compute. reflexivity.
Defined.

(** ** More on the sweep *)

Section SweepMore.

Lemma sweep_results_due (cenv : CronEnv) (s : Store) (k : string)
    (e : DeadMansTrigger) :
  (k, e) ∈ sweep_results cenv s ->
  s !! k = Some e /\ DueToFire e <= cron_now cenv.
Proof.
  unfold sweep_results, store_Run. intros Hin.
  apply query_results_due.
  destruct (cron_query cenv) as [[n err]|]; cbn [it_pending] in Hin.
  - eapply subseteq_take. exact Hin.
  - exact Hin.
Qed.

Lemma omap_launched (http : HttpEnv) (l : list (string * DeadMansTrigger)) :
  omap (fun g => match NewRequest_error http g.1 with
                 | None => Some g
                 | Some _ => None
                 end)
    (map (fun t => (FireURL t, FirePayload t)) (l.*2))
  = omap (fun r => match NewRequest_error http (FireURL r.2) with
                   | None => Some (FireURL r.2, FirePayload r.2)
                   | Some _ => None
                   end) l.
Proof.
  induction l as [|[k t] l IH]; [reflexivity|].
  cbn. cbn in IH. rewrite IH. reflexivity.
Qed.

End SweepMore.

(** What a sweep leaves alone. *)
Lemma ServeCron_spares (cenv : CronEnv) (s : Store) :
  (forall k e,
      s !! k = Some e -> cron_now cenv < DueToFire e ->
      sw_store (ServeCron cenv s).2 !! k = Some e)
  /\ Forall (fun url => exists k e,
                 s !! k = Some e /\ DueToFire e <= cron_now cenv /\ FireURL e = url)
       (callbacks_finished (sw_trace (ServeCron cenv s).2)).
Proof.
  destruct (ServeCron_spec cenv s) as (_ & Hspec).
  pose proof (sweep_results_due cenv s) as Hdue.
  destruct (sweep_results cenv s) as [|[k0 t0] pending] eqn:Hres.
  - destruct Hspec as (-> & ->). split; [auto|constructor].
  - destruct Hspec as (_ & Hc & Hstore & _). split.
    + intros k e Hk Hlate.
      destruct (Hdue k0 t0 ltac:(left)) as (Hk0 & Hk0due).
      assert (k <> k0) by (intros ->; rewrite Hk0 in Hk; injection Hk as ->; lia).
      destruct Hstore as [-> | ->]; [exact Hk|].
      rewrite lookup_delete_ne by congruence. exact Hk.
    + apply Forall_forall. intros url Hin.
      apply (elem_of_Permutation_proper _ _ _ Hc) in Hin.
      apply list_elem_of_fmap in Hin as ([k e] & -> & Hin).
      destruct (Hdue k e Hin) as (Hs & Hd). exists k, e. auto.
Qed.

(** X11. A sweep does not touch what is not due: a record whose due time
    is later than the sweep's clock reading is in the store afterwards as it
    was before, whatever fails during the sweep, and every callback the
    sweep ran belongs to a record that was in the store and due. *)
Theorem sweep_spares_not_due (cenv : CronEnv) (s : Store) :
  (forall k e,
      s !! k = Some e -> cron_now cenv < DueToFire e ->
      sw_store (ServeCron cenv s).2 !! k = Some e)
  /\ Forall (fun url => exists k e,
                 s !! k = Some e /\ DueToFire e <= cron_now cenv /\ FireURL e = url)
       (callbacks_finished (sw_trace (ServeCron cenv s).2)).
Proof.
  destruct (ServeCron_spares cenv s) as (Hrecords & Hcallbacks).
  split; [exact Hrecords | exact Hcallbacks].
Qed.

(** X12. A sweep over a store in which nothing is due does nothing: no
    callback, no delete, no log line, the store as it was; it returns the
    error of the query if the query failed, and none otherwise. *)
Theorem sweep_nothing_due (cenv : CronEnv) (s : Store) :
  (forall k e, s !! k = Some e -> cron_now cenv < DueToFire e) ->
  ServeCron cenv s
  = (match cron_query cenv with
     | Some (_, e) => if decide (e = Done) then None else Some (LibErr e)
     | None => None
     end,
     {| sw_store := s; sw_trace := []; sw_wg := 0;
        sw_launched := []; sw_deletes := 0 |}).
Proof.
  intros Hnone.
  assert (Hres : sweep_results cenv s = []).
  { destruct (sweep_results cenv s) as [|[k e] rest] eqn:Hres; [reflexivity|].
    destruct (sweep_results_due cenv s k e) as (Hk & Hd); [rewrite Hres; left|].
    specialize (Hnone k e Hk). lia. }
  pose proof (store_Run_final (cron_query cenv) s (cron_now cenv)) as Hfinal.
  unfold sweep_results in Hres. unfold ServeCron, Next. rewrite Hres, Hfinal.
  unfold wg_Wait. cbn [sw_launched]. rewrite run_order_nil. cbn [wait_for].
  destruct (cron_query cenv) as [[n e]|]; reflexivity.
Qed.

Lemma sweep_nothing_due_witness :
  ServeCron (Sample.cron_at (Sample.t0 + 1800 * Second) Sample.unavailable Sample.http_down)
    Sample.store2
  = (None, {| sw_store := Sample.store2; sw_trace := []; sw_wg := 0;
              sw_launched := []; sw_deletes := 0 |}).
Proof.
  apply (sweep_nothing_due
           (Sample.cron_at (Sample.t0 + 1800 * Second) Sample.unavailable Sample.http_down)
           Sample.store2).
  intros k e Hk.
  destruct (decide (k = SampleUuid.id2)) as [->|Hk2].
  - vm_compute in Hk. injection Hk as <-. vm_compute. reflexivity.
  - unfold Sample.store2 in Hk. rewrite lookup_insert_ne in Hk by congruence.
    unfold Sample.store1 in Hk. apply lookup_singleton_Some in Hk as [_ <-].
    vm_compute. reflexivity.
Defined.

(** The POSTs of a sweep: those of the results of the query whose URL
    [http.NewRequest] accepts, in whichever order the callbacks ran. *)
Lemma ServeCron_posts (cenv : CronEnv) (s : Store) :
  posts (sw_trace (ServeCron cenv s).2)
  ≡ₚ omap (fun r => match NewRequest_error (cron_http cenv) (FireURL r.2) with
                    | None => Some (FireURL r.2, FirePayload r.2)
                    | Some _ => None
                    end) (sweep_results cenv s).
Proof.
  unfold ServeCron, sweep_results, Next.
  destruct (it_pending (store_Run (cron_query cenv) s (cron_now cenv)))
    as [|[k target] pending].
  - unfold wg_Wait. cbn [fst snd sw_launched]. rewrite run_order_nil. reflexivity.
  - match goal with
    | |- context [cron_for ?c ?p ?f ?k0 ?t ?w0] =>
        destruct (cron_for_spec p c f k0 t w0) as (_ & Hl & _ & _ & Hp & Hw & _);
        destruct (cron_for c p f k0 t w0) as [err w1]
    end.
    cbn [fst snd sw_launched sw_trace sw_wg it_pending it_final] in *.
    unfold wg_Wait. cbn [snd].
    pose proof (run_order_Permutation (cron_order cenv) (sw_launched w1)) as Hperm.
    destruct (wait_for_spec (cron_http cenv)
                (run_order (cron_order cenv) (sw_launched w1)) w1)
      as (_ & Hp2 & _).
    { rewrite Hperm, Hl, Hw. cbn [app]. rewrite length_map. cbn [length].
      rewrite length_fmap. lia. }
    rewrite Hp2, Hp. change (posts []) with (@nil (string * string)).
    rewrite <- (omap_launched (cron_http cenv) ((k, target) :: pending)).
    rewrite Hperm, Hl. reflexivity.
Qed.

(** X13. The callbacks of a sweep: for each result of the query one POST
    to the record's URL with the record's payload, except for the URLs that
    [http.NewRequest] rejects, for which nothing is sent; no other POST, and
    none twice. The callbacks run concurrently: in whichever order they get
    to run, the POSTs are these, up to their order. *)
Theorem sweep_posts_each_result (cenv : CronEnv) (s : Store) :
  posts (sw_trace (ServeCron cenv s).2)
  ≡ₚ omap (fun r => match NewRequest_error (cron_http cenv) (FireURL r.2) with
                    | None => Some (FireURL r.2, FirePayload r.2)
                    | Some _ => None
                    end) (sweep_results cenv s).
Proof.
  rewrite ServeCron_posts. reflexivity.
Qed.

(** X14. A sweep removes at most one record and changes none: the store
    it leaves is the one it found, or the one it found without the key of
    the first result of the query, and it is the latter when the query has
    a result and no delete fails. The key removed was in the store and
    due. *)
Theorem sweep_removes_at_most_one (cenv : CronEnv) (s : Store) :
  match sweep_results cenv s with
  | [] => sw_store (ServeCron cenv s).2 = s
  | (k, e) :: _ =>
      s !! k = Some e
      /\ DueToFire e <= cron_now cenv
      /\ (sw_store (ServeCron cenv s).2 = s
          \/ sw_store (ServeCron cenv s).2 = delete k s)
      /\ ((forall n, cron_delete cenv n = None) ->
          sw_store (ServeCron cenv s).2 = delete k s)
  end.
Proof.
  destruct (ServeCron_spec cenv s) as (_ & Hspec).
  pose proof (sweep_results_due cenv s) as Hdue.
  destruct (sweep_results cenv s) as [|[k e] pending].
  - exact (proj1 Hspec).
  - destruct (Hdue k e ltac:(left)) as (Hk & Hd).
    destruct Hspec as (_ & _ & Hstore & Hok). auto.
Qed.

(** X15. When the query breaks off with an error, the sweep returns that
    error, whatever the deletes and the callbacks did. *)
Theorem sweep_reports_query_error (cenv : CronEnv) (s : Store) (n : nat)
    (e : lib_error) :
  cron_query cenv = Some (n, e) ->
  e <> Done ->
  (ServeCron cenv s).1 = Some (LibErr e).
Proof.
  intros Hq Hne. rewrite ServeCron_error, Hq.
  destruct (decide (e = Done)); [contradiction|reflexivity].
Qed.

Lemma sweep_reports_query_error_witness :
  (ServeCron {| cron_now := Sample.t0 + 3 * Hour;
                cron_query := Some (1%nat, Failure "rpc error: code = DeadlineExceeded");
                cron_delete := Sample.unavailable;
                cron_http := Sample.http_down;
                cron_order := [1%nat] |} Sample.store2).1
  = Some (LibErr (Failure "rpc error: code = DeadlineExceeded")).
Proof.
  apply (sweep_reports_query_error
           {| cron_now := Sample.t0 + 3 * Hour;
              cron_query := Some (1%nat, Failure "rpc error: code = DeadlineExceeded");
              cron_delete := Sample.unavailable;
              cron_http := Sample.http_down;
              cron_order := [1%nat] |} Sample.store2 1
           (Failure "rpc error: code = DeadlineExceeded") eq_refl).
  discriminate.
Defined.

(** ** More on the router of [handler.go] *)

Lemma handler_route_cases `{UuidLib} (rq : Request unit) (rw : Handler.Writer) :
  (exists txt, Handler.route rq rw = (None, Write (Text txt) rw))
  \/ Handler.route rq rw = (Some Handler.NotFound, rw)
  \/ (exists m, Handler.route rq rw = (Some (Handler.MethodNotAllowed m), rw)).
Proof.
  unfold Handler.route, Handler.createTrigger, Handler.getTrigger,
    Handler.deleteTrigger, Handler.checkinTrigger.
  destruct (Split (Path rq)) as [|a [|b [|c [|d rest]]]];
    cbn [List.length Nat.leb andb seg nth]; auto;
    destruct (String.eqb a "triggers"); auto.
  - destruct (String.eqb (Method rq) "POST"); eauto.
  - destruct (FromString b) as [id [msg|]]; auto.
    destruct (String.eqb (Method rq) "GET"); eauto.
    destruct (String.eqb (Method rq) "DELETE"); eauto.
  - destruct (FromString b) as [id [msg|]]; auto.
    destruct (String.eqb c "checkin"); auto.
    destruct (String.eqb (Method rq) "POST"); eauto.
Qed.

(** X16. The router of [handler.go] answers every path that begins with
    a slash with 404, whatever the method: it looks for [triggers] in the
    segment before the first slash. *)
Theorem handler_leading_slash_not_found `{UuidLib} (rq : Request unit) (rest : string) :
  Path rq = String "/" rest ->
  forall fuel,
    Handler.HandleHTTP fuel rq fresh_writer
    = Some {| rw_header := [("Content-Type", "text/plain;charset=UTF-8");
                            ("Content-Length", "41")];
              rw_status := Some 404;
              rw_body := [Text "The requested resource could not be found"] |}.
Proof.
  intros Hpath fuel. unfold Handler.HandleHTTP, Handler.route.
  rewrite Hpath, Split_String. cbn [Ascii.eqb Bool.eqb].
  cbn [List.length Nat.leb andb seg nth String.eqb]. reflexivity.
Qed.

Lemma handler_leading_slash_not_found_witness :
  Handler.HandleHTTP 3 (Sample.bare "POST" "/triggers") fresh_writer
  = Some {| rw_header := [("Content-Type", "text/plain;charset=UTF-8");
                          ("Content-Length", "41")];
            rw_status := Some 404;
            rw_body := [Text "The requested resource could not be found"] |}.
Proof.
  apply (handler_leading_slash_not_found (H := SampleUuid.lib)
           (Sample.bare "POST" "/triggers") "triggers" eq_refl).
Defined.

(** X17. The router of [handler.go] never answers 405: when it returns,
    the status is 200 (a stub ran) or 404; and it does not return exactly
    when its first half has set the method error. *)
Theorem handler_never_answers_405 `{UuidLib} (fuel : nat) (rq : Request unit) :
  (forall w,
      Handler.HandleHTTP fuel rq fresh_writer = Some w ->
      rw_status w = Some 200 \/ rw_status w = Some 404)
  /\ (Handler.HandleHTTP fuel rq fresh_writer = None
      <-> exists m, (Handler.route rq fresh_writer).1
                    = Some (Handler.MethodNotAllowed m)).
Proof.
  unfold Handler.HandleHTTP.
  destruct (handler_route_cases rq fresh_writer) as [[txt ->] | [-> | [m ->]]];
    cbn [fst].
  - split.
    + intros w Hw. injection Hw as <-. auto.
    + split; [discriminate|]. intros [m Hm]. discriminate.
  - split.
    + intros w Hw. injection Hw as <-. auto.
    + split; [discriminate|]. intros [m Hm]. discriminate.
  - rewrite handler_report_method_not_allowed. split.
    + intros w Hw. discriminate.
    + split; eauto.
Qed.

Lemma handler_never_answers_405_witness :
  rw_status (Write (Text "CreateTrigger") (fresh_writer : Handler.Writer)) = Some 200
  \/ rw_status (Write (Text "CreateTrigger") (fresh_writer : Handler.Writer)) = Some 404.
Proof.
  apply (proj1 (handler_never_answers_405 (H := SampleUuid.lib) 5
                  (Sample.bare "POST" "triggers"))).
  reflexivity.
Defined.

Lemma sweep_spares_not_due_witness :
  sw_store
    (ServeCron (Sample.cron_at (Sample.t0 + 90 * 60 * Second) Sample.unavailable
                  Sample.http_down) Sample.store2).2
    !! SampleUuid.id2
  = Some (Sample.trigger SampleUuid.id2 2 Sample.t0 "http://example.org/two").
Proof.
  apply (proj1 (sweep_spares_not_due
                  (Sample.cron_at (Sample.t0 + 90 * 60 * Second) Sample.unavailable
                     Sample.http_down) Sample.store2)).
  - apply lookup_insert_eq.
  - vm_compute. reflexivity.
Defined.

Lemma sweep_removes_at_most_one_witness :
  sw_store
    (ServeCron (Sample.cron_at (Sample.t0 + 3 * Hour) Sample.no_failure Sample.http_ok)
       Sample.store2).2
  = delete SampleUuid.id1 Sample.store2.
Proof.
  pose proof (sweep_removes_at_most_one
                (Sample.cron_at (Sample.t0 + 3 * Hour) Sample.no_failure Sample.http_ok)
                Sample.store2) as Hone.
  assert (Hres : sweep_results
                   (Sample.cron_at (Sample.t0 + 3 * Hour) Sample.no_failure Sample.http_ok)
                   Sample.store2
                 = [(SampleUuid.id1,
                     Sample.trigger SampleUuid.id1 1 Sample.t0 "http://example.org/one");
                    (SampleUuid.id2,
                     Sample.trigger SampleUuid.id2 2 Sample.t0 "http://example.org/two")])
    by (vm_compute; reflexivity).
  rewrite Hres in Hone. destruct Hone as (_ & _ & _ & Hok).
  apply Hok. reflexivity.
Defined.

(** ** The switch *)

(** X18. A trigger that is checked in is not fired before its time: after
    a create or a check-in that succeeded, with an interval that does not
    wrap, every sweep whose clock reading lies before the truncated
    check-in time plus the interval leaves the record in the store as it
    is, whatever fails during the sweep. *)
Theorem checked_in_trigger_survives_sweep `{UuidLib} (env : Env) (cenv : CronEnv)
    (s s' : Store) (key : string) (e : DeadMansTrigger) :
  successful_mutation env s s' key ->
  s' !! key = Some e ->
  hours_exact (HoursBetweenFire e) ->
  cron_now cenv < Truncate (env_now env) Second + HoursBetweenFire e * Hour ->
  sw_store (ServeCron cenv s').2 !! key = Some e.
Proof.
  intros Hmut He Hh Hnow.
  apply (proj1 (ServeCron_spares cenv s') key e He).
  destruct (successful_mutation_record env s s' key Hmut) as (e' & He' & _ & Hdue).
  rewrite He in He'. injection He' as <-.
  rewrite Hdue, (int_mul_hours _ Hh). exact Hnow.
Qed.

Lemma checked_in_trigger_survives_sweep_witness :
  sw_store
    (ServeCron (Sample.cron_at (Sample.t0 + 23 * Hour) Sample.no_failure Sample.http_ok)
       (<[SampleUuid.id1 := Sample.trigger SampleUuid.id1 24 Sample.t0
                              "http://example.org/hook"]> ∅)).2
    !! SampleUuid.id1
  = Some (Sample.trigger SampleUuid.id1 24 Sample.t0 "http://example.org/hook").
Proof.
  apply (checked_in_trigger_survives_sweep (Sample.env_at (Sample.t0 + 7))
           (Sample.cron_at (Sample.t0 + 23 * Hour) Sample.no_failure Sample.http_ok) ∅).
  - left. exists (Sample.body_of 24), fresh_writer. eexists. split; reflexivity.
  - apply lookup_insert_eq.
  - unfold hours_exact. cbn. lia.
  - vm_compute. reflexivity.
Defined.

Lemma single_result (s : Store) (now : Time) (k : string) (e : DeadMansTrigger) :
  s !! k = Some e ->
  DueToFire e <= now ->
  (forall k' e', s !! k' = Some e' -> k' <> k -> now < DueToFire e') ->
  query_results s now = [(k, e)].
Proof.
  intros Hk Hdue Hothers.
  assert (Hnodup : NoDup (query_results s now)).
  { unfold query_results. rewrite merge_sort_Permutation.
    apply NoDup_filter, NoDup_map_to_list. }
  assert (Hall : forall x, x ∈ query_results s now -> x = (k, e)).
  { intros [k' e'] Hin. apply query_results_due in Hin as (Hk' & Hd').
    destruct (decide (k' = k)) as [->|Hne]; [congruence|].
    specialize (Hothers k' e' Hk' Hne). lia. }
  assert (Hin : (k, e) ∈ query_results s now) by (apply query_results_due; auto).
  destruct (query_results s now) as [|x [|y l]].
  - inversion Hin.
  - rewrite (Hall x) by left. reflexivity.
  - exfalso. rewrite (Hall x), (Hall y) in Hnodup by (repeat constructor).
    apply NoDup_cons in Hnodup as (Hnot & _). apply Hnot. left.
Qed.

(** X19. A trigger whose time has come is fired and removed: when one
    record of the store is due and no other is, a sweep whose query and
    deletes do not fail, and whose HTTP client accepts the URL, posts the
    record's payload to the record's URL once, posts nothing else, removes
    the record from the store and returns no error, whatever the outcome
    of the POST. *)
Theorem overdue_trigger_fires (cenv : CronEnv) (s : Store) (k : string)
    (e : DeadMansTrigger) :
  s !! k = Some e ->
  DueToFire e <= cron_now cenv ->
  (forall k' e', s !! k' = Some e' -> k' <> k -> cron_now cenv < DueToFire e') ->
  cron_query cenv = None ->
  (forall n, cron_delete cenv n = None) ->
  NewRequest_error (cron_http cenv) (FireURL e) = None ->
  (ServeCron cenv s).1 = None
  /\ posts (sw_trace (ServeCron cenv s).2) = [(FireURL e, FirePayload e)]
  /\ delete_calls (sw_trace (ServeCron cenv s).2) = [k]
  /\ sw_store (ServeCron cenv s).2 = delete k s.
Proof.
  intros Hk Hdue Hothers Hq Hdel Hurl.
  assert (Hres : sweep_results cenv s = [(k, e)]).
  { unfold sweep_results, store_Run. rewrite Hq. cbn [it_pending].
    apply single_result; assumption. }
  split; [rewrite ServeCron_error, Hq; reflexivity|].
  split.
  { apply Permutation_singleton_r. rewrite ServeCron_posts, Hres. cbn.
    rewrite Hurl. reflexivity. }
  destruct (ServeCron_spec cenv s) as (_ & Hspec). rewrite Hres in Hspec.
  destruct Hspec as (Hd & _ & _ & Hok). split; [exact Hd|]. exact (Hok Hdel).
Qed.

Lemma overdue_trigger_fires_witness :
  posts (sw_trace
           (ServeCron (Sample.cron_at (Sample.t0 + 90 * 60 * Second) Sample.no_failure
                         Sample.http_down) Sample.store2).2)
  = [("http://example.org/one", "ping")]
  /\ sw_store
       (ServeCron (Sample.cron_at (Sample.t0 + 90 * 60 * Second) Sample.no_failure
                     Sample.http_down) Sample.store2).2
     = delete SampleUuid.id1 Sample.store2.
Proof.
  destruct (overdue_trigger_fires
              (Sample.cron_at (Sample.t0 + 90 * 60 * Second) Sample.no_failure
                 Sample.http_down) Sample.store2 SampleUuid.id1
              (Sample.trigger SampleUuid.id1 1 Sample.t0 "http://example.org/one"))
    as (_ & Hposts & _ & Hstore).
  - reflexivity.
  - vm_compute. discriminate.
  - intros k' e' Hk' Hne. unfold Sample.store2 in Hk'.
    apply lookup_insert_Some in Hk' as [[<- <-] | [_ Hk']].
    + vm_compute. reflexivity.
    + unfold Sample.store1 in Hk'. apply lookup_singleton_Some in Hk' as [<- _].
      contradiction.
  - reflexivity.
  - reflexivity.
  - reflexivity.
  - split; assumption.
Defined.
